(** * UAE Promo Pulse data validator: rules, record validators, policy table

    A shallow embedding of [validator.py]: the field rules of
    [ValidationRules], the record and dataset validators of [DataValidator]
    and the policy table of [CleaningPolicies], over a model of the Python
    values a record can hold and of the builtins the rules call
    ([float], [int], [str], [str.strip], [re.match], [pd.isna],
    truthiness).

    - A field holds a scalar: [None], an [int], a [float] or a [str]; a
      float is an IEEE 754 binary64 in the representation of [SpecFloat],
      NaN and the infinities included.
    - A builtin that can raise returns in [exc]; [try ... except:] is
      [try_except], so that a rule that returns on every input is a lemma
      and not a convention.
    - [float(str)] and [repr(float)] are modelled in full: decimal text to
      the nearest binary64, and the shortest text that reads back.
    - [pd.to_datetime] is a parameter of the rules; they only depend on
      whether it raises.
    - A record is a finite map from field names to values, a data frame the
      list of its rows with their index labels, and the validator object is
      passed explicitly. *)

From Stdlib Require Import ZArith List Bool Lia Ascii String DecimalString.
From Stdlib Require Import Floats.SpecFloat.
From Stdlib Require DecimalPos DecimalZ.
From stdpp Require Import base option gmap strings.

Local Open Scope Z_scope.

(** ** Python values, exceptions and builtins *)

Module Py.

(** Exceptions the builtins used by the validator can raise. *)
Inductive exn : Type :=
| TypeError
| ValueError
| OverflowError.

(** A computation either returns or raises. *)
Inductive exc (A : Type) : Type :=
| Ret (a : A)
| Raise (e : exn).
Arguments Ret {A} a.
Arguments Raise {A} e.

Definition bind {A B : Type} (c : exc A) (k : A -> exc B) : exc B :=
  match c with
  | Ret a => k a
  | Raise e => Raise e
  end.

(** [try: body  except: handler] with a bare [except]. *)
Definition try_except {A : Type} (body : exc A) (handler : exc A) : exc A :=
  match body with
  | Ret a => Ret a
  | Raise _ => handler
  end.

Definition returns {A : Type} (c : exc A) : Prop := exists a, c = Ret a.

(** IEEE 754 binary64, the representation of a Python [float]. *)
Definition prec : Z := 53.
Definition emax : Z := 1024.

(** The scalar values a record field can hold: [None], an [int], a [float]
    (NaN is pandas' marker of a missing cell) or a [str].  A string is a
    sequence of code points below 256. *)
Inductive value : Type :=
| VNone
| VInt (z : Z)
| VFloat (f : spec_float)
| VStr (s : string).

Definition nan : spec_float := S754_nan.

(** The binary64 nearest to an integer, ties to even (an infinity beyond
    the largest finite float); exact up to [2^53]. *)
Definition float_of_Z (z : Z) : spec_float :=
  binary_normalize prec emax z 0 false.

(** *** Characters *)

Definition code (c : ascii) : Z := Z.of_N (N_of_ascii c).

Definition is_digit (c : ascii) : bool := (48 <=? code c) && (code c <=? 57).
Definition digit_val (c : ascii) : Z := code c - 48.

(** [str.isspace] on the code points below 256. *)
Definition is_space (c : ascii) : bool :=
  let n := code c in
  ((9 <=? n) && (n <=? 13)) || ((28 <=? n) && (n <=? 32))
  || (n =? 133) || (n =? 160).

(** The white space [float] accepts around a number: the ASCII white space
    of C plus the two non-ASCII spaces below 256. *)
Definition is_float_space (c : ascii) : bool :=
  let n := code c in
  ((9 <=? n) && (n <=? 13)) || (n =? 32) || (n =? 133) || (n =? 160).

Definition to_lower (c : ascii) : ascii :=
  let n := code c in
  if (65 <=? n) && (n <=? 90) then ascii_of_N (Z.to_N (n + 32)) else c.

Fixpoint drop_while (p : ascii -> bool) (l : list ascii) : list ascii :=
  match l with
  | c :: l' => if p c then drop_while p l' else l
  | [] => []
  end.

Definition strip_with (p : ascii -> bool) (l : list ascii) : list ascii :=
  rev (drop_while p (rev (drop_while p l))).

(** [s.strip()] *)
Definition strip (s : string) : string :=
  string_of_list_ascii (strip_with is_space (list_ascii_of_string s)).

(** *** Decimal text of an [int] *)

Definition str_of_Z (z : Z) : string := NilZero.string_of_int (Z.to_int z).

(** *** [float(str)] *)

(** Digits after the first one of a digit part: [digit (["_"] digit)*]. *)
Fixpoint digits_tail (acc cnt : Z) (l : list ascii) : Z * Z * list ascii :=
  match l with
  | c :: l' =>
      if is_digit c then digits_tail (10 * acc + digit_val c) (cnt + 1) l'
      else if Ascii.eqb c "_" then
        match l' with
        | d :: l'' =>
            if is_digit d then digits_tail (10 * acc + digit_val d) (cnt + 1) l''
            else (acc, cnt, l)
        | [] => (acc, cnt, l)
        end
      else (acc, cnt, l)
  | [] => (acc, cnt, l)
  end.

(** A digit part: its value, its number of digits, and the rest. *)
Definition digitpart (l : list ascii) : option (Z * Z * list ascii) :=
  match l with
  | c :: l' => if is_digit c then Some (digits_tail (digit_val c) 1 l') else None
  | [] => None
  end.

(** [number ::= [digitpart] "." digitpart | digitpart ["."]], as a decimal
    mantissa and a decimal exponent. *)
Definition number (l : list ascii) : option (Z * Z * list ascii) :=
  match digitpart l with
  | Some (iv, _, r) =>
      match r with
      | c :: r' =>
          if Ascii.eqb c "." then
            match digitpart r' with
            | Some (fv, fc, r'') => Some (iv * 10 ^ fc + fv, - fc, r'')
            | None => Some (iv, 0, r')
            end
          else Some (iv, 0, r)
      | [] => Some (iv, 0, r)
      end
  | None =>
      match l with
      | c :: r' =>
          if Ascii.eqb c "." then
            match digitpart r' with
            | Some (fv, fc, r'') => Some (fv, - fc, r'')
            | None => None
            end
          else None
      | [] => None
      end
  end.

Definition sign (l : list ascii) : bool * list ascii :=
  match l with
  | c :: l' =>
      if Ascii.eqb c "-" then (true, l')
      else if Ascii.eqb c "+" then (false, l')
      else (false, l)
  | [] => (false, l)
  end.

(** [exponent ::= ("e" | "E") [sign] digitpart]; [None] when the text after
    the number is neither empty nor an exponent that ends the string. *)
Definition exponent (l : list ascii) : option Z :=
  match l with
  | [] => Some 0
  | c :: l' =>
      if Ascii.eqb (to_lower c) "e" then
        let '(neg, l'') := sign l' in
        match digitpart l'' with
        | Some (ev, _, []) => Some (if neg then - ev else ev)
        | _ => None
        end
      else None
  end.

(** The binary64 nearest to [m * 10 ^ e] for [m > 0], ties to even; it is
    an infinity when the decimal is beyond the largest finite float. *)
Definition round_decimal (neg : bool) (m : positive) (e : Z) : spec_float :=
  match e with
  | Zneg p =>
      SFdiv prec emax (S754_finite neg m 0)
                      (S754_finite false (Z.to_pos (10 ^ Zpos p)) 0)
  | _ => binary_normalize prec emax
           (if neg then - (Zpos m * 10 ^ e) else Zpos m * 10 ^ e) 0 false
  end.

Definition lower_string (l : list ascii) : string :=
  string_of_list_ascii (map to_lower l).

Definition float_of_string (s : string) : exc spec_float :=
  let l := strip_with is_float_space (list_ascii_of_string s) in
  let '(neg, body) := sign l in
  let w := lower_string body in
  if String.eqb w "inf" || String.eqb w "infinity" then Ret (S754_infinity neg)
  else if String.eqb w "nan" then Ret S754_nan
  else
    match number body with
    | Some (m, e, r) =>
        match exponent r with
        | Some x =>
            match m with
            | Zpos p => Ret (round_decimal neg p (e + x))
            | _ => Ret (S754_zero neg)
            end
        | None => Raise ValueError
        end
    | None => Raise ValueError
    end.

(** *** [repr(float)]: the shortest decimal text that reads back as the float *)

(** Compare [a * 2^ea * 10^ka] with [b * 2^eb * 10^kb]. *)
Definition scaled_compare (a ea ka b eb kb : Z) : comparison :=
  let e := Z.min ea eb in
  let k := Z.min ka kb in
  (a * 2 ^ (ea - e) * 10 ^ (ka - k)) ?= (b * 2 ^ (eb - e) * 10 ^ (kb - k)).

(** [floor (m * 2^e / 10^n)]. *)
Definition floor_scaled (m e n : Z) : Z :=
  (m * 2 ^ Z.max e 0 * 10 ^ Z.max (- n) 0) / (2 ^ Z.max (- e) 0 * 10 ^ Z.max n 0).

Fixpoint log10_down (fuel : nat) (m e k : Z) : Z :=
  match fuel with
  | O => k
  | S fuel' =>
      match scaled_compare m e 0 1 0 k with
      | Lt => log10_down fuel' m e (k - 1)
      | _ => k
      end
  end.

Fixpoint log10_up (fuel : nat) (m e k : Z) : Z :=
  match fuel with
  | O => k
  | S fuel' =>
      match scaled_compare m e 0 1 0 (k + 1) with
      | Lt => k
      | _ => log10_up fuel' m e (k + 1)
      end
  end.

(** [floor (log10 (m * 2^e))], from the bit length and a correction. *)
Definition log10_floor (m e : Z) : Z :=
  let est := ((Z.log2 m + e) * 30103) / 100000 in
  log10_up 3 m e (log10_down 3 m e est).

(** Whether [d * 10^n] reads back as the float [m * 2^e]: it lies between
    the midpoints to the neighbouring floats, the midpoints included when
    [m] is even. *)
Definition reads_back (m e d n : Z) : bool :=
  let lo := if (m =? 2 ^ (prec - 1)) && (3 - emax - prec <? e)
            then 4 * m - 1 else 4 * m - 2 in
  let hi := 4 * m + 2 in
  let cl := scaled_compare lo (e - 2) 0 d 0 n in
  let ch := scaled_compare d 0 n hi (e - 2) 0 in
  if Z.even m
  then negb (match cl with Gt => true | _ => false end)
       && negb (match ch with Gt => true | _ => false end)
  else (match cl with Lt => true | _ => false end)
       && (match ch with Lt => true | _ => false end).

(** The shortest decimal [d * 10^n], with [ndig] digits or more, that reads
    back as [m * 2^e], the nearest one when there are two. *)
Fixpoint shortest (fuel : nat) (m e k10 ndig : Z) : Z * Z :=
  let n := k10 - (ndig - 1) in
  let dlo := floor_scaled m e n in
  match fuel with
  | O => (dlo, n)
  | S fuel' =>
      let dhi := dlo + 1 in
      match reads_back m e dlo n, reads_back m e dhi n with
      | true, true =>
          match scaled_compare (2 * m) e 0 (2 * dlo + 1) 0 n with
          | Gt => (dhi, n)
          | Lt => (dlo, n)
          | Eq => if Z.even dlo then (dlo, n) else (dhi, n)
          end
      | true, false => (dlo, n)
      | false, true => (dhi, n)
      | false, false => shortest fuel' m e k10 (ndig + 1)
      end
  end.

Fixpoint strip_zeros (fuel : nat) (d n : Z) : Z * Z :=
  match fuel with
  | O => (d, n)
  | S fuel' =>
      if (d mod 10 =? 0) && negb (d =? 0) then strip_zeros fuel' (d / 10) (n + 1)
      else (d, n)
  end.

Definition zeros (k : Z) : string :=
  string_of_list_ascii (repeat "0"%char (Z.to_nat k)).

Definition strlen (s : string) : Z := Z.of_nat (String.length s).

(** The text of the positive float with digits [ds] and decimal point after
    [decpt] digits: positional for [-4 < decpt <= 16], else with an
    exponent of two digits or more. *)
Definition format_repr (ds : string) (decpt : Z) : string :=
  let len := strlen ds in
  if (decpt <=? -4) || (16 <? decpt) then
    let x := decpt - 1 in
    let mant :=
      if 1 <? len
      then String.substring 0 1 ds +:+ "." +:+ String.substring 1 (Z.to_nat (len - 1)) ds
      else ds in
    let xs := str_of_Z (Z.abs x) in
    mant +:+ "e" +:+ (if x <? 0 then "-" else "+")
         +:+ (if strlen xs <? 2 then "0" +:+ xs else xs)
  else if decpt <=? 0 then "0." +:+ zeros (- decpt) +:+ ds
  else if len <=? decpt then ds +:+ zeros (decpt - len) +:+ ".0"
  else String.substring 0 (Z.to_nat decpt) ds +:+ "."
       +:+ String.substring (Z.to_nat decpt) (Z.to_nat (len - decpt)) ds.

Definition repr_finite (m : positive) (e : Z) : string :=
  let '(d, n) := shortest 17 (Zpos m) e (log10_floor (Zpos m) e) 1 in
  let '(d, n) := strip_zeros 20 d n in
  let ds := str_of_Z d in
  format_repr ds (strlen ds + n).

Definition float_repr (f : spec_float) : string :=
  match f with
  | S754_nan => "nan"
  | S754_infinity s => if s then "-inf" else "inf"
  | S754_zero s => if s then "-0.0" else "0.0"
  | S754_finite s m e => (if s then "-" else "") +:+ repr_finite m e
  end.

(** *** Conversions and tests on values *)

(** [float(value)] *)
Definition py_float (v : value) : exc spec_float :=
  match v with
  | VNone => Raise TypeError
  | VInt z =>
      match float_of_Z z with
      | S754_infinity _ => Raise OverflowError
      | f => Ret f
      end
  | VFloat f => Ret f
  | VStr s => float_of_string s
  end.

(** [int(f)] for a float: truncation towards zero. *)
Definition int_of_float (f : spec_float) : exc Z :=
  match f with
  | S754_nan => Raise ValueError
  | S754_infinity _ => Raise OverflowError
  | S754_zero _ => Ret 0
  | S754_finite s m e =>
      let a := if 0 <=? e then Zpos m * 2 ^ e else Zpos m / 2 ^ (- e) in
      Ret (if s then - a else a)
  end.

(** [x < y] and [x > y] on floats: false as soon as one side is NaN. *)
Definition float_lt (x y : spec_float) : bool :=
  match SFcompare x y with Some Lt => true | _ => false end.
Definition float_gt (x y : spec_float) : bool :=
  match SFcompare x y with Some Gt => true | _ => false end.

(** The exact order between the number a float stands for and an integer:
    [S754_finite s m e] stands for [(-1)^s * m * 2^e]. *)
Definition exact_compare (f : spec_float) (z : Z) : option comparison :=
  match f with
  | S754_nan => None
  | S754_infinity s => Some (if s then Lt else Gt)
  | S754_zero _ => Some (0 ?= z)
  | S754_finite s m e =>
      let a := if s then Zneg m else Zpos m in
      Some (if 0 <=? e then a * 2 ^ e ?= z else a ?= z * 2 ^ (- e))
  end.

(** The float stands for a number of the interval [[lo, hi]]. *)
Definition within (f : spec_float) (lo hi : Z) : bool :=
  match exact_compare f lo, exact_compare f hi with
  | Some (Gt | Eq), Some (Lt | Eq) => true
  | _, _ => false
  end.

(** [str(value)], also what an f-string field [{value}] renders. *)
Definition py_str (v : value) : string :=
  match v with
  | VNone => "None"
  | VInt z => str_of_Z z
  | VFloat f => float_repr f
  | VStr s => s
  end.

(** [pd.isna(value)] on a scalar. *)
Definition isna (v : value) : bool :=
  match v with
  | VNone => true
  | VFloat S754_nan => true
  | _ => false
  end.

(** [value == ''] *)
Definition eq_empty (v : value) : bool :=
  match v with
  | VStr s => String.eqb s ""
  | _ => false
  end.

(** Truth value of a scalar: [None], zero and the empty string are false;
    NaN is true. *)
Definition truthy (v : value) : bool :=
  match v with
  | VNone => false
  | VInt z => negb (z =? 0)
  | VFloat (S754_zero _) => false
  | VFloat _ => true
  | VStr s => negb (String.eqb s "")
  end.

(** [a or b] *)
Definition py_or (a b : value) : value := if truthy a then a else b.

(** *** The regular expressions the rules use

    A pattern [^ a1 ... an $] whose atoms are [\d] or a literal character;
    [$] matches at the end of the string and before a final newline. *)
Inductive atom : Type :=
| Digit
| Lit (c : ascii).

Definition atom_matches (a : atom) (c : ascii) : bool :=
  match a with
  | Digit => is_digit c
  | Lit d => Ascii.eqb c d
  end.

Fixpoint match_atoms (p : list atom) (l : list ascii) : bool :=
  match p, l with
  | [], [] => true
  | [], [c] => code c =? 10
  | [], _ => false
  | a :: p', c :: l' => atom_matches a c && match_atoms p' l'
  | _ :: _, [] => false
  end.

(** [re.match(pattern, s)] as a truth value. *)
Definition re_match (p : list atom) (s : string) : bool :=
  match_atoms p (list_ascii_of_string s).

#[export] Instance exc_ret : MRet exc := @Ret.
#[export] Instance exc_bind : MBind exc := fun A B k c => bind c k.

End Py.

Import Py.

(** ** The field rules *)

Module ValidationRules.

Definition d2 : list atom := [Digit; Digit].

(** [r'^\d{4}-\d{2}-\d{2} \d{2}:\d{2}:\d{2}$'] *)
Definition TIMESTAMP_PATTERN : list atom :=
  d2 ++ d2 ++ [Lit "-"] ++ d2 ++ [Lit "-"] ++ d2 ++ [Lit " "]
     ++ d2 ++ [Lit ":"] ++ d2 ++ [Lit ":"] ++ d2.

Definition PRICE_MIN : Z := 0.
Definition PRICE_MAX : Z := 10000.
Definition QUANTITY_MIN : Z := 1.
Definition QUANTITY_MAX : Z := 100.
Definition VALID_CITIES : gset string := {[ "Dubai"; "Abu Dhabi"; "Sharjah" ]}.
Definition VALID_CHANNELS : gset string := {[ "App"; "Web"; "Marketplace" ]}.
Definition VALID_CATEGORIES : gset string :=
  {[ "Electronics"; "Fashion"; "Home & Kitchen"; "Grocery"; "Beauty";
     "Sports"; "Books"; "Toys" ]}.
Definition VALID_PAYMENT_STATUS : gset string := {[ "Paid"; "Failed"; "Refunded" ]}.

(** What a rule returns: [(valid, message)]. *)
Definition verdict : Type := bool * option string.

Definition valid : verdict := (true, None).
Definition invalid (msg : string) : verdict := (false, Some msg).

Section Rules.

(** [pd.to_datetime(value)]: returns, or raises on a text that is not a
    date and time.  The rules only look at whether it raises. *)
Variable to_datetime : value -> exc unit.

Definition validate_timestamp (v : value) : exc verdict :=
  if isna v || eq_empty v then mret (invalid "Missing timestamp")
  else
    try_except
      (if negb (re_match TIMESTAMP_PATTERN (py_str v))
       then mret (invalid ("Invalid format: " +:+ py_str v))
       else _ ← to_datetime v; mret valid)
      (mret (invalid ("Unparsable: " +:+ py_str v))).

Definition validate_price (v : value) : exc verdict :=
  try_except
    (p ← py_float v;
     if float_lt p (float_of_Z PRICE_MIN) || float_gt p (float_of_Z PRICE_MAX)
     then mret (invalid ("Outside range [" +:+ str_of_Z PRICE_MIN +:+ ", "
                           +:+ str_of_Z PRICE_MAX +:+ "]: " +:+ float_repr p))
     else mret valid)
    (mret (invalid ("Not numeric: " +:+ py_str v))).

Definition validate_quantity (v : value) : exc verdict :=
  try_except
    (f ← py_float v;
     q ← int_of_float f;
     if (q <? QUANTITY_MIN) || (q >? QUANTITY_MAX)
     then mret (invalid ("Outside range [" +:+ str_of_Z QUANTITY_MIN +:+ ", "
                           +:+ str_of_Z QUANTITY_MAX +:+ "]: " +:+ str_of_Z q))
     else mret valid)
    (mret (invalid ("Not numeric: " +:+ py_str v))).

Definition validate_city (v : value) : exc verdict :=
  if isna v || eq_empty v then mret (invalid "Missing city")
  else
    let city := strip (py_str v) in
    if negb (bool_decide (city ∈ VALID_CITIES))
    then mret (invalid ("Invalid city: " +:+ city))
    else mret valid.

Definition validate_channel (v : value) : exc verdict :=
  if isna v || eq_empty v then mret (invalid "Missing channel")
  else
    let channel := strip (py_str v) in
    if negb (bool_decide (channel ∈ VALID_CHANNELS))
    then mret (invalid ("Invalid channel: " +:+ channel))
    else mret valid.

Definition validate_payment_status (v : value) : exc verdict :=
  if isna v || eq_empty v then mret (invalid "Missing payment_status")
  else
    let status := strip (py_str v) in
    if negb (bool_decide (status ∈ VALID_PAYMENT_STATUS))
    then mret (invalid ("Invalid status: " +:+ status))
    else mret valid.

Definition validate_cost_constraint (cost price : value) : exc verdict :=
  try_except
    (c ← py_float cost;
     p ← py_float price;
     if float_gt c p
     then mret (invalid ("Cost " +:+ float_repr c +:+ " > Price " +:+ float_repr p))
     else mret valid)
    (mret valid).

Definition validate_stock (v : value) : exc verdict :=
  try_except
    (s ← py_float v;
     if float_lt s (float_of_Z 0)
     then mret (invalid ("Negative stock: " +:+ float_repr s))
     else mret valid)
    (mret (invalid ("Not numeric: " +:+ py_str v))).

End Rules.

End ValidationRules.

(** ** The record and dataset validators *)

Module DataValidator.

Import ValidationRules.

(** An issue as a record validator emits it. *)
Record issue : Type := mk_issue {
  issue_type : string;
  issue_detail : option string;
  action_taken : string
}.

(** An issue of the dataset log: the issue stamped with the row's identifier. *)
Record logged_issue : Type := mk_logged {
  record_identifier : value;
  logged_type : string;
  logged_detail : option string;
  logged_action : string
}.

(** The validator object: its [issues] attribute. *)
Record state : Type := mk_state { issues : list logged_issue }.

(** [DataValidator()] *)
Definition init : state := mk_state [].

(** [valid, msg = rule(...); if not valid: issues.append({...})]: the issues
    one rule adds. *)
Definition check (rule : exc verdict) (ty act : string) : exc (list issue) :=
  '(ok, msg) ← rule;
  mret (if ok : bool then [] else [mk_issue ty msg act]).

(** [if key in record: <check>] *)
Definition when_present (record : gmap string value) (key : string)
    (k : value -> exc (list issue)) : exc (list issue) :=
  match record !! key with
  | Some v => k v
  | None => mret []
  end.

(** [if 'unit_cost_aed' in record and 'base_price_aed' in record: ...] *)
Definition check_cost_constraint (record : gmap string value) : exc (list issue) :=
  match record !! "unit_cost_aed", record !! "base_price_aed" with
  | Some cost, Some price =>
      check (validate_cost_constraint cost price) "CONSTRAINT_VIOLATION" "CAP"
  | _, _ => mret []
  end.

(** [key not in record or pd.isna(record.get(key))] *)
Definition missing (record : gmap string value) (key : string) : bool :=
  match record !! key with
  | None => true
  | Some v => isna v
  end.

Definition check_missing (record : gmap string value) (key : string) : list issue :=
  if missing record key
  then [mk_issue "MISSING_VALUE" (Some ("Missing " +:+ key)) "IMPUTE"]
  else [].

Section Validator.

Variable to_datetime : value -> exc unit.

Definition validate_sales_record (record : gmap string value) (record_id : value)
    : exc (list issue) :=
  i1 ← when_present record "order_time" (fun v =>
         check (validate_timestamp to_datetime v) "INVALID_TIMESTAMP" "DROP");
  i2 ← when_present record "selling_price_aed" (fun v =>
         check (validate_price v) "OUTLIER_VALUE" "CAP");
  i3 ← when_present record "qty" (fun v =>
         check (validate_quantity v) "OUTLIER_VALUE" "CAP");
  i4 ← when_present record "city" (fun v =>
         check (validate_city v) "INVALID_CITY" "CORRECT");
  i5 ← when_present record "channel" (fun v =>
         check (validate_channel v) "INVALID_CHANNEL" "CORRECT");
  i6 ← when_present record "payment_status" (fun v =>
         check (validate_payment_status v) "INVALID_VALUE" "CORRECT");
  i7 ← check_cost_constraint record;
  mret (i1 ++ i2 ++ i3 ++ i4 ++ i5 ++ i6 ++ i7 ++ check_missing record "discount_pct").

Definition validate_inventory_record (record : gmap string value) (record_id : value)
    : exc (list issue) :=
  when_present record "stock_on_hand" (fun v =>
    check (validate_stock v) "IMPOSSIBLE_VALUE" "CORRECT").

Definition validate_products_record (record : gmap string value) (record_id : value)
    : exc (list issue) :=
  i2 ← check_cost_constraint record;
  mret (check_missing record "unit_cost_aed" ++ i2).

(** [row.get(key)]: the cell, or [None] when the row has no such column. *)
Definition row_get (row : gmap string value) (key : string) : value :=
  default VNone (row !! key).

(** [row.get('order_id') or row.get('product_id') or f'ROW_{idx}'] *)
Definition record_id_of (idx : value) (row : gmap string value) : value :=
  py_or (row_get row "order_id")
        (py_or (row_get row "product_id") (VStr ("ROW_" +:+ py_str idx))).

(** The branch on [dataset_type]. *)
Definition validate_record (dataset_type : string) (row : gmap string value)
    (record_id : value) : exc (list issue) :=
  if String.eqb dataset_type "sales" then validate_sales_record row record_id
  else if String.eqb dataset_type "inventory" then validate_inventory_record row record_id
  else if String.eqb dataset_type "products" then validate_products_record row record_id
  else mret [].

Definition stamp (record_id : value) (i : issue) : logged_issue :=
  mk_logged record_id (issue_type i) (issue_detail i) (action_taken i).

(** The loop over [df.iterrows()]: a data frame is the list of its rows, each
    with its index label; [validation_issues] is the log so far. *)
Fixpoint validate_rows (df : list (value * gmap string value)) (dataset_type : string)
    (validation_issues : list logged_issue) : exc (list logged_issue) :=
  match df with
  | [] => mret validation_issues
  | (idx, row) :: rest =>
      let record_id := record_id_of idx row in
      found ← validate_record dataset_type row record_id;
      validate_rows rest dataset_type (validation_issues ++ map (stamp record_id) found)
  end.

(** [validate_dataset(self, df, dataset_type)]: the validator after the call
    and the issue log returned. *)
Definition validate_dataset (self : state) (df : list (value * gmap string value))
    (dataset_type : string) : exc (state * list logged_issue) :=
  validation_issues ← validate_rows df dataset_type [];
  mret (mk_state validation_issues, validation_issues).

End Validator.

(** A data frame with the default index [0, 1, 2, ...]. *)
Definition range_indexed (rows : list (gmap string value))
    : list (value * gmap string value) :=
  imap (fun i row => (VInt (Z.of_nat i), row)) rows.

End DataValidator.

(** ** The policy table *)

Module CleaningPolicies.

Record policy : Type := mk_policy {
  action : string;
  justification : string
}.

Definition POLICIES : gmap string policy :=
  <[ "INVALID_TIMESTAMP" := mk_policy "DROP"
       "Corrupted timestamps cannot be inferred; data integrity > completeness" ]>
  (<[ "OUTLIER_VALUE" := mk_policy "CAP"
       "Cap at percentile bounds (95th percentile) to preserve data while fixing anomalies" ]>
  (<[ "MISSING_VALUE" := mk_policy "IMPUTE"
       "discount_pct: set to 0 (no discount); unit_cost: impute as 50% of base_price" ]>
  (<[ "INVALID_CITY" := mk_policy "CORRECT"
       "Standardize to valid city names (Dubai default); supports geospatial analysis" ]>
  (<[ "INVALID_CHANNEL" := mk_policy "CORRECT"
       "Standardize to valid channel (App default); ensures channel consistency" ]>
  (<[ "INVALID_VALUE" := mk_policy "CORRECT"
       "payment_status: default to Paid; preserves transaction data" ]>
  (<[ "CONSTRAINT_VIOLATION" := mk_policy "CAP"
       "unit_cost > base_price: cap unit_cost at base_price; maintains margin logic" ]>
  (<[ "IMPOSSIBLE_VALUE" := mk_policy "CORRECT"
       "Negative stock: set to 0; stock > 1000: cap at 500 (supply chain bounds)" ]>
  ∅))))))).

(** [POLICIES.get(issue_type, {'action': 'SKIP', ...})] *)
Definition get_policy (issue_type : string) : policy :=
  default (mk_policy "SKIP" "No policy defined") (POLICIES !! issue_type).

End CleaningPolicies.

(** ** What the validators compute

    Every rule returns, so a record validator returns the concatenation of
    the issues of its checks, and the dataset validator the concatenation,
    in row order, of the stamped issues of its rows.  The definitions below
    name these lists; the lemmas after them relate them to the validators. *)

Module Log.

Import ValidationRules DataValidator.

(** The verdict of a rule that returns. *)
Definition outcome (c : exc verdict) : verdict :=
  match c with
  | Ret r => r
  | Raise _ => valid
  end.

Definition issues_of (r : verdict) (ty act : string) : list issue :=
  if fst r then [] else [mk_issue ty (snd r) act].

Definition present (record : gmap string value) (key : string)
    (rule : value -> exc verdict) (ty act : string) : list issue :=
  match record !! key with
  | Some v => issues_of (outcome (rule v)) ty act
  | None => []
  end.

Definition cost_issues (record : gmap string value) : list issue :=
  match record !! "unit_cost_aed", record !! "base_price_aed" with
  | Some cost, Some price =>
      issues_of (outcome (validate_cost_constraint cost price))
                "CONSTRAINT_VIOLATION" "CAP"
  | _, _ => []
  end.

Section Log.

Variable to_datetime : value -> exc unit.

Definition sales_issues (record : gmap string value) : list issue :=
  present record "order_time" (validate_timestamp to_datetime) "INVALID_TIMESTAMP" "DROP"
  ++ present record "selling_price_aed" validate_price "OUTLIER_VALUE" "CAP"
  ++ present record "qty" validate_quantity "OUTLIER_VALUE" "CAP"
  ++ present record "city" validate_city "INVALID_CITY" "CORRECT"
  ++ present record "channel" validate_channel "INVALID_CHANNEL" "CORRECT"
  ++ present record "payment_status" validate_payment_status "INVALID_VALUE" "CORRECT"
  ++ cost_issues record
  ++ check_missing record "discount_pct".

Definition inventory_issues (record : gmap string value) : list issue :=
  present record "stock_on_hand" validate_stock "IMPOSSIBLE_VALUE" "CORRECT".

Definition products_issues (record : gmap string value) : list issue :=
  check_missing record "unit_cost_aed" ++ cost_issues record.

Definition record_issues (dataset_type : string) (record : gmap string value)
    : list issue :=
  if String.eqb dataset_type "sales" then sales_issues record
  else if String.eqb dataset_type "inventory" then inventory_issues record
  else if String.eqb dataset_type "products" then products_issues record
  else [].

Definition row_log (dataset_type : string) (r : value * gmap string value)
    : list logged_issue :=
  map (stamp (record_id_of (fst r) (snd r))) (record_issues dataset_type (snd r)).

Definition dataset_log (dataset_type : string) (df : list (value * gmap string value))
    : list logged_issue :=
  flat_map (row_log dataset_type) df.

End Log.

End Log.

Import ValidationRules DataValidator CleaningPolicies Log.

(** ** A calendar parser and sample records

    [Calendar.to_datetime] stands for [pd.to_datetime] on the texts the
    timestamp pattern lets through: it returns when the fields form a date
    and a time of day, and raises otherwise. *)

Module Calendar.

Definition two (a b : ascii) : Z := 10 * digit_val a + digit_val b.

Definition leap (y : Z) : bool :=
  (y mod 4 =? 0) && (negb (y mod 100 =? 0) || (y mod 400 =? 0)).

Definition days_in_month (y m : Z) : Z :=
  if m =? 2 then (if leap y then 29 else 28)
  else if (m =? 4) || (m =? 6) || (m =? 9) || (m =? 11) then 30
  else 31.

Definition to_datetime (v : value) : exc unit :=
  match v with
  | VStr s =>
      match list_ascii_of_string s with
      | y1 :: y2 :: y3 :: y4 :: _ :: m1 :: m2 :: _ :: d1 :: d2 :: _
           :: h1 :: h2 :: _ :: n1 :: n2 :: _ :: s1 :: s2 :: _ =>
          let y := 100 * two y1 y2 + two y3 y4 in
          let m := two m1 m2 in
          let d := two d1 d2 in
          if (1 <=? y) && (1 <=? m) && (m <=? 12)
             && (1 <=? d) && (d <=? days_in_month y m)
             && (two h1 h2 <=? 23) && (two n1 n2 <=? 59) && (two s1 s2 <=? 59)
          then Ret tt
          else Raise ValueError
      | _ => Raise ValueError
      end
  | _ => Ret tt
  end.

End Calendar.

Module Samples.

(** Scenario A: a sales record whose only defect is its timestamp. *)
Definition scenario_A : gmap string value :=
  <[ "order_time" := VStr "2024-13-40 99:99:99" ]>
  (<[ "selling_price_aed" := VInt 50 ]>
  (<[ "qty" := VInt 2 ]>
  (<[ "city" := VStr "Dubai" ]>
  (<[ "channel" := VStr "App" ]>
  (<[ "payment_status" := VStr "Paid" ]>
  (<[ "discount_pct" := VInt 10 ]> ∅)))))).

(** Scenario B: price, quantity and city, and no other field. *)
Definition scenario_B : gmap string value :=
  <[ "selling_price_aed" := VInt 15000 ]>
  (<[ "qty" := VInt 3 ]>
  (<[ "city" := VStr "Dubayy" ]> ∅)).

(** A sales row whose gated fields are all present and null. *)
Definition null_fields : gmap string value :=
  <[ "order_time" := VNone ]>
  (<[ "city" := VFloat nan ]>
  (<[ "channel" := VNone ]>
  (<[ "payment_status" := VFloat nan ]>
  (<[ "discount_pct" := VInt 5 ]> ∅)))).


(** A row whose order identifier is a missing cell. *)
Definition order_nan : gmap string value :=
  <[ "order_id" := VFloat nan ]> (<[ "product_id" := VStr "P0001" ]> ∅).

(** A row with a product identifier and a negative stock. *)
Definition stock_row : gmap string value :=
  <[ "product_id" := VStr "P0001" ]> (<[ "stock_on_hand" := VInt (-50) ]> ∅).

End Samples.

(** ** The identifier as the specification words it

    The order identifier when it is not missing, else the product
    identifier when it is not missing, else [ROW_<index>]; a cell is
    missing when [pd.isna] holds of it. *)
Definition first_non_missing (idx : value) (row : gmap string value) : value :=
  if negb (isna (row_get row "order_id")) then row_get row "order_id"
  else if negb (isna (row_get row "product_id")) then row_get row "product_id"
  else VStr ("ROW_" +:+ py_str idx).





(** An issue whose type is a category of the policy table and whose action
    is the one the table prescribes, which is not the fallback SKIP. *)
Definition follows_policy (ty act : string) : Prop :=
  is_Some (POLICIES !! ty)
  /\ act = action (get_policy ty)
  /\ act <> "SKIP".

(** ** Vocabulary of the further properties *)

(** The number a float stands for is at least, or is below, an integer;
    both are false of NaN. *)
Definition at_least (f : spec_float) (z : Z) : bool :=
  match exact_compare f z with
  | Some (Gt | Eq) => true
  | _ => false
  end.

Definition below (f : spec_float) (z : Z) : bool :=
  match exact_compare f z with
  | Some Lt => true
  | _ => false
  end.

(** The fields each record validator looks up. *)
Definition sales_fields : list string :=
  [ "order_time"; "selling_price_aed"; "qty"; "city"; "channel";
    "payment_status"; "unit_cost_aed"; "base_price_aed"; "discount_pct" ].

(** The issue types of a sales record, in the order of its checks. *)
Definition sales_rule_order : list string :=
  [ "INVALID_TIMESTAMP"; "OUTLIER_VALUE"; "OUTLIER_VALUE"; "INVALID_CITY";
    "INVALID_CHANNEL"; "INVALID_VALUE"; "CONSTRAINT_VIOLATION"; "MISSING_VALUE" ].

(** A rule accepts the value a record holds under a key, if it holds one. *)
Definition accepts (rule : value -> exc verdict) (record : gmap string value)
    (key : string) : Prop :=
  forall v, record !! key = Some v -> rule v = Ret (true, None).

(** ** The sample dataset generator ([create_sample_dataset.py])

    The rows the generator builds, as functions of the values it draws at
    random; a draw is constrained by the range its [random] call is given. *)

Module SampleData.














(** A row of [create_sample_inventory]: the snapshot date and the two
    identifiers come from the loops, the three numbers are drawn. *)
Definition inventory_row (snapshot_date product_id store_id : string)
    (stock_on_hand reorder_point lead_time_days : Z) : gmap string value :=
  <[ "snapshot_date" := VStr snapshot_date ]>
  (<[ "product_id" := VStr product_id ]>
  (<[ "store_id" := VStr store_id ]>
  (<[ "stock_on_hand" := VInt stock_on_hand ]>
  (<[ "reorder_point" := VInt reorder_point ]>
  (<[ "lead_time_days" := VInt lead_time_days ]> ∅))))).

(** A row of [create_sample_products]: the cost is drawn in [[20, 500]]. *)
Definition products_row (product_id category brand : string)
    (unit_cost_aed : spec_float) : gmap string value :=
  <[ "product_id" := VStr product_id ]>
  (<[ "category" := VStr category ]>
  (<[ "brand" := VStr brand ]>
  (<[ "unit_cost_aed" := VFloat unit_cost_aed ]> ∅))).

End SampleData.

(** ** Every rule returns *)

Lemma try_except_returns {A : Type} (body : exc A) (a : A) :
  returns (try_except body (Ret a)).
Proof. destruct body as [b | e]; [exists b | exists a]; reflexivity. Qed.

Lemma validate_timestamp_returns to_datetime v :
  returns (validate_timestamp to_datetime v).
Proof.
  unfold validate_timestamp.
  destruct (isna v || eq_empty v); [eexists; reflexivity |].
  apply try_except_returns.
Qed.

Lemma validate_price_returns v : returns (validate_price v).
Proof. apply try_except_returns. Qed.

Lemma validate_quantity_returns v : returns (validate_quantity v).
Proof. apply try_except_returns. Qed.

Lemma validate_city_returns v : returns (validate_city v).
Proof.
  unfold validate_city.
  destruct (isna v || eq_empty v); [eexists; reflexivity |].
  destruct (negb _); eexists; reflexivity.
Qed.

Lemma validate_channel_returns v : returns (validate_channel v).
Proof.
  unfold validate_channel.
  destruct (isna v || eq_empty v); [eexists; reflexivity |].
  destruct (negb _); eexists; reflexivity.
Qed.

Lemma validate_payment_status_returns v : returns (validate_payment_status v).
Proof.
  unfold validate_payment_status.
  destruct (isna v || eq_empty v); [eexists; reflexivity |].
  destruct (negb _); eexists; reflexivity.
Qed.

Lemma validate_cost_constraint_returns cost price :
  returns (validate_cost_constraint cost price).
Proof. apply try_except_returns. Qed.

Lemma validate_stock_returns v : returns (validate_stock v).
Proof. apply try_except_returns. Qed.

(** ** The validators return the lists of [Log] *)

Lemma returns_outcome (c : exc verdict) : returns c -> c = Ret (outcome c).
Proof. intros [r ->]. reflexivity. Qed.

Lemma check_eq rule ty act :
  returns rule -> check rule ty act = Ret (issues_of (outcome rule) ty act).
Proof. intros [[ok msg] ->]. reflexivity. Qed.

Lemma when_present_eq record key rule ty act :
  (forall v, returns (rule v)) ->
  when_present record key (fun v => check (rule v) ty act)
  = Ret (present record key rule ty act).
Proof.
  intros Hr. unfold when_present, present.
  destruct (record !! key) as [v |]; [apply check_eq, Hr | reflexivity].
Qed.

Lemma check_cost_constraint_eq record :
  check_cost_constraint record = Ret (cost_issues record).
Proof.
  unfold check_cost_constraint, cost_issues.
  destruct (record !! "unit_cost_aed") as [cost |]; [| reflexivity].
  destruct (record !! "base_price_aed") as [price |]; [| reflexivity].
  apply check_eq, validate_cost_constraint_returns.
Qed.

Lemma validate_sales_record_eq to_datetime record record_id :
  validate_sales_record to_datetime record record_id
  = Ret (sales_issues to_datetime record).
Proof.
  unfold validate_sales_record, sales_issues.
  rewrite (when_present_eq _ _ (validate_timestamp to_datetime))
    by apply validate_timestamp_returns.
  rewrite (when_present_eq _ _ validate_price) by apply validate_price_returns.
  rewrite (when_present_eq _ _ validate_quantity) by apply validate_quantity_returns.
  rewrite (when_present_eq _ _ validate_city) by apply validate_city_returns.
  rewrite (when_present_eq _ _ validate_channel) by apply validate_channel_returns.
  rewrite (when_present_eq _ _ validate_payment_status)
    by apply validate_payment_status_returns.
  rewrite check_cost_constraint_eq.
  reflexivity.
Qed.

Lemma validate_inventory_record_eq record record_id :
  validate_inventory_record record record_id = Ret (inventory_issues record).
Proof.
  unfold validate_inventory_record, inventory_issues.
  apply (when_present_eq _ _ validate_stock), validate_stock_returns.
Qed.

Lemma validate_products_record_eq record record_id :
  validate_products_record record record_id = Ret (products_issues record).
Proof.
  unfold validate_products_record, products_issues.
  rewrite check_cost_constraint_eq. reflexivity.
Qed.

Lemma validate_record_eq to_datetime dataset_type row record_id :
  validate_record to_datetime dataset_type row record_id
  = Ret (record_issues to_datetime dataset_type row).
Proof.
  unfold validate_record, record_issues.
  destruct (String.eqb dataset_type "sales"); [apply validate_sales_record_eq |].
  destruct (String.eqb dataset_type "inventory"); [apply validate_inventory_record_eq |].
  destruct (String.eqb dataset_type "products"); [apply validate_products_record_eq |].
  reflexivity.
Qed.

Lemma validate_rows_eq to_datetime dataset_type df :
  forall validation_issues,
    validate_rows to_datetime df dataset_type validation_issues
    = Ret (validation_issues ++ dataset_log to_datetime dataset_type df).
Proof.
  induction df as [| [idx row] rest IH]; intros acc; simpl.
  - rewrite app_nil_r. reflexivity.
  - rewrite validate_record_eq. simpl.
    rewrite IH. unfold row_log at 1. simpl. rewrite <- app_assoc. reflexivity.
Qed.

Lemma validate_dataset_eq to_datetime self df dataset_type :
  validate_dataset to_datetime self df dataset_type
  = Ret (mk_state (dataset_log to_datetime dataset_type df),
         dataset_log to_datetime dataset_type df).
Proof.
  unfold validate_dataset. rewrite validate_rows_eq. reflexivity.
Qed.

(** ** Comparison of floats *)

Lemma SFcompare_swap x y : SFcompare y x = option_map CompOpp (SFcompare x y).
Proof.
  destruct x as [sx | sx | | sx mx ex], y as [sy | sy | | sy my ey];
    simpl; try reflexivity;
    try (destruct sx; reflexivity); try (destruct sy; reflexivity);
    try (destruct sx, sy; reflexivity).
  destruct sx, sy; simpl; try reflexivity;
    rewrite (Z.compare_antisym ex ey); destruct (ex ?= ey); simpl; try reflexivity;
    rewrite <- (Pos.compare_cont_antisym _ _ Eq); simpl;
    destruct (Pos.compare_cont Eq mx my); reflexivity.
Qed.

Lemma float_gt_lt x y : float_gt x y = float_lt y x.
Proof.
  unfold float_gt, float_lt. rewrite (SFcompare_swap x y).
  destruct (SFcompare x y) as [[ | | ] |]; reflexivity.
Qed.

Lemma SFcompare_nan_r x : SFcompare x S754_nan = None.
Proof. destruct x; reflexivity. Qed.



(** *** The comparisons against the bounds are exact *)



Lemma SFcompare_zero_exact p : SFcompare p (float_of_Z 0) = exact_compare p 0.
Proof.
  destruct p as [s | s | | s m e]; try reflexivity.
  change (float_of_Z 0) with (S754_zero false). simpl.
  f_equal. destruct (Z.leb_spec 0 e); destruct s; try reflexivity; symmetry.
  - apply Z.compare_lt_iff. assert (0 < 2 ^ e) by (apply Z.pow_pos_nonneg; lia). nia.
  - apply Z.compare_gt_iff. assert (0 < 2 ^ e) by (apply Z.pow_pos_nonneg; lia). nia.
Qed.



(** ** The claims *)

(** C1, as amended.  The sales record with exactly [selling_price_aed = 15000],
    [qty = 3] and [city = "Dubayy"] yields exactly three issues, in this
    order: OUTLIER_VALUE with action CAP for the price, INVALID_CITY with
    action CORRECT, and MISSING_VALUE with action IMPUTE for the absent
    [discount_pct]; the checks gated by [order_time], [channel] and
    [payment_status] add nothing because those keys are absent. *)
Theorem scenario_B_three_issues to_datetime record_id :
  validate_sales_record to_datetime Samples.scenario_B record_id
  = Ret [ mk_issue "OUTLIER_VALUE" (Some "Outside range [0, 10000]: 15000.0") "CAP";
          mk_issue "INVALID_CITY" (Some "Invalid city: Dubayy") "CORRECT";
          mk_issue "MISSING_VALUE" (Some "Missing discount_pct") "IMPUTE" ]
  /\ (forall k, when_present Samples.scenario_B "order_time" k = Ret [])
  /\ (forall k, when_present Samples.scenario_B "channel" k = Ret [])
  /\ (forall k, when_present Samples.scenario_B "payment_status" k = Ret []).
Proof.
  split; [| repeat split; intros k; reflexivity].
  rewrite validate_sales_record_eq. vm_compute. reflexivity.
Qed.

(** C1 fails as stated: the record of scenario B yields three issues, the
    third one of type MISSING_VALUE, not two. *)
Lemma scenario_B_not_two_issues :
  validate_sales_record Calendar.to_datetime Samples.scenario_B (VStr "ROW_0")
  = Ret [ mk_issue "OUTLIER_VALUE" (Some "Outside range [0, 10000]: 15000.0") "CAP";
          mk_issue "INVALID_CITY" (Some "Invalid city: Dubayy") "CORRECT";
          mk_issue "MISSING_VALUE" (Some "Missing discount_pct") "IMPUTE" ]
  /\ ~ (exists i1 i2,
          validate_sales_record Calendar.to_datetime Samples.scenario_B (VStr "ROW_0")
          = Ret [i1; i2]).
Proof.
  assert (E : validate_sales_record Calendar.to_datetime Samples.scenario_B (VStr "ROW_0")
              = Ret [ mk_issue "OUTLIER_VALUE"
                        (Some "Outside range [0, 10000]: 15000.0") "CAP";
                      mk_issue "INVALID_CITY" (Some "Invalid city: Dubayy") "CORRECT";
                      mk_issue "MISSING_VALUE" (Some "Missing discount_pct") "IMPUTE" ])
    by (vm_compute; reflexivity).
  split; [exact E |].
  intros (i1 & i2 & H). rewrite E in H. discriminate H.
Qed.

(** C3.  [get_policy] is total on strings: on each of the eight categories
    of the table it returns the category's policy, with the actions
    INVALID_TIMESTAMP -> DROP, OUTLIER_VALUE -> CAP, MISSING_VALUE -> IMPUTE,
    INVALID_CITY -> CORRECT, INVALID_CHANNEL -> CORRECT,
    INVALID_VALUE -> CORRECT, CONSTRAINT_VIOLATION -> CAP,
    IMPOSSIBLE_VALUE -> CORRECT, and on every other string it returns the
    default (SKIP, "No policy defined"). *)
Theorem get_policy_table issue_type :
  get_policy issue_type =
    if String.eqb issue_type "INVALID_TIMESTAMP" then
      mk_policy "DROP"
        "Corrupted timestamps cannot be inferred; data integrity > completeness"
    else if String.eqb issue_type "OUTLIER_VALUE" then
      mk_policy "CAP"
        "Cap at percentile bounds (95th percentile) to preserve data while fixing anomalies"
    else if String.eqb issue_type "MISSING_VALUE" then
      mk_policy "IMPUTE"
        "discount_pct: set to 0 (no discount); unit_cost: impute as 50% of base_price"
    else if String.eqb issue_type "INVALID_CITY" then
      mk_policy "CORRECT"
        "Standardize to valid city names (Dubai default); supports geospatial analysis"
    else if String.eqb issue_type "INVALID_CHANNEL" then
      mk_policy "CORRECT"
        "Standardize to valid channel (App default); ensures channel consistency"
    else if String.eqb issue_type "INVALID_VALUE" then
      mk_policy "CORRECT" "payment_status: default to Paid; preserves transaction data"
    else if String.eqb issue_type "CONSTRAINT_VIOLATION" then
      mk_policy "CAP"
        "unit_cost > base_price: cap unit_cost at base_price; maintains margin logic"
    else if String.eqb issue_type "IMPOSSIBLE_VALUE" then
      mk_policy "CORRECT"
        "Negative stock: set to 0; stock > 1000: cap at 500 (supply chain bounds)"
    else mk_policy "SKIP" "No policy defined".
Proof.
  unfold get_policy, POLICIES.
  repeat match goal with
         | |- context [String.eqb issue_type ?k] =>
             destruct (String.eqb_spec issue_type k) as [-> | Hne];
             [ vm_compute; reflexivity
             | rewrite lookup_insert_ne by (intros E; apply Hne; symmetry; exact E);
               clear Hne ]
         end.
  rewrite lookup_empty. reflexivity.
Qed.




(** C6, as amended.  When [float] raises on the cost or on the price, the
    cost rule returns valid.  Otherwise, with [c] and [p] the two floats, it
    returns invalid iff [c > p], and the diagnostic is "Cost <c> > Price <p>"
    with both rendered as floats: (60, 50) gives "Cost 60.0 > Price 50.0",
    (40, 50) is valid, (None, 50) is valid. *)
Theorem validate_cost_constraint_cases cost price :
  validate_cost_constraint cost price
  = match py_float cost, py_float price with
    | Ret c, Ret p =>
        Ret (if float_gt c p
             then (false, Some ("Cost " +:+ float_repr c +:+ " > Price " +:+ float_repr p))
             else (true, None))
    | _, _ => Ret (true, None)
    end
  /\ validate_cost_constraint (VInt 60) (VInt 50)
     = Ret (false, Some "Cost 60.0 > Price 50.0")
  /\ validate_cost_constraint (VInt 40) (VInt 50) = Ret (true, None)
  /\ validate_cost_constraint VNone (VInt 50) = Ret (true, None).
Proof.
  split; [| repeat split; vm_compute; reflexivity].
  unfold validate_cost_constraint.
  destruct (py_float cost) as [c | e1]; [| reflexivity].
  destruct (py_float price) as [p | e2]; [| reflexivity].
  simpl. destruct (float_gt c p); reflexivity.
Qed.

(** C6 fails as stated: on (60, 50) the diagnostic is
    "Cost 60.0 > Price 50.0", not "Cost 60 > Price 50". *)
Lemma cost_diagnostic_renders_floats :
  validate_cost_constraint (VInt 60) (VInt 50)
  = Ret (false, Some "Cost 60.0 > Price 50.0")
  /\ validate_cost_constraint (VInt 60) (VInt 50)
     <> Ret (false, Some "Cost 60 > Price 50").
Proof.
  assert (E : validate_cost_constraint (VInt 60) (VInt 50)
              = Ret (false, Some "Cost 60.0 > Price 50.0"))
    by (vm_compute; reflexivity).
  split; [exact E |]. rewrite E. discriminate.
Qed.




(** ** Facts on the issue lists *)

Lemma present_invalid record key rule ty act v msg :
  record !! key = Some v -> rule v = Ret (false, Some msg) ->
  present record key rule ty act = [mk_issue ty (Some msg) act].
Proof. intros Hk Hr. unfold present. rewrite Hk, Hr. reflexivity. Qed.

Lemma issues_of_type r ty act i : In i (issues_of r ty act) -> issue_type i = ty.
Proof.
  unfold issues_of. destruct (fst r); simpl; [tauto |].
  intros [<- | []]. reflexivity.
Qed.

Lemma present_type record key rule ty act i :
  In i (present record key rule ty act) -> issue_type i = ty.
Proof.
  unfold present. destruct (record !! key); [apply issues_of_type | intros []].
Qed.

Lemma cost_issues_type record i :
  In i (cost_issues record) -> issue_type i = "CONSTRAINT_VIOLATION".
Proof.
  unfold cost_issues.
  destruct (record !! "unit_cost_aed"); [| intros []].
  destruct (record !! "base_price_aed"); [apply issues_of_type | intros []].
Qed.

Lemma check_missing_In record key i :
  In i (check_missing record key) ->
  i = mk_issue "MISSING_VALUE" (Some ("Missing " +:+ key)) "IMPUTE".
Proof.
  unfold check_missing. destruct (missing record key); simpl; [| tauto].
  intros [<- | []]. reflexivity.
Qed.

Lemma issues_of_follow r ty act :
  follows_policy ty act ->
  Forall (fun i => follows_policy (issue_type i) (action_taken i)) (issues_of r ty act).
Proof.
  intros H. unfold issues_of. destruct (fst r); constructor; [exact H | constructor].
Qed.

Lemma present_follow record key rule ty act :
  follows_policy ty act ->
  Forall (fun i => follows_policy (issue_type i) (action_taken i))
         (present record key rule ty act).
Proof.
  intros H. unfold present.
  destruct (record !! key); [apply issues_of_follow, H | constructor].
Qed.

Ltac known_policy :=
  split; [eexists; vm_compute; reflexivity
         | split; [vm_compute; reflexivity | discriminate]].

Lemma cost_issues_follow record :
  Forall (fun i => follows_policy (issue_type i) (action_taken i)) (cost_issues record).
Proof.
  unfold cost_issues.
  destruct (record !! "unit_cost_aed"); [| constructor].
  destruct (record !! "base_price_aed"); [| constructor].
  apply issues_of_follow. known_policy.
Qed.

Lemma check_missing_follow record key :
  Forall (fun i => follows_policy (issue_type i) (action_taken i))
         (check_missing record key).
Proof.
  unfold check_missing. destruct (missing record key); constructor; [| constructor].
  simpl. known_policy.
Qed.

Lemma record_issues_follow to_datetime dataset_type record :
  Forall (fun i => follows_policy (issue_type i) (action_taken i))
         (record_issues to_datetime dataset_type record).
Proof.
  unfold record_issues, sales_issues, inventory_issues, products_issues.
  repeat match goal with
         | |- context [if ?b then _ else _] => destruct b
         end;
    repeat apply Forall_app_2;
    try apply cost_issues_follow; try apply check_missing_follow;
    try (apply present_follow; known_policy).
  constructor.
Qed.

Lemma record_issues_unsupported to_datetime dataset_type record :
  dataset_type <> "sales" -> dataset_type <> "inventory" -> dataset_type <> "products" ->
  record_issues to_datetime dataset_type record = [].
Proof.
  intros H1 H2 H3. unfold record_issues.
  destruct (String.eqb_spec dataset_type "sales"); [contradiction |].
  destruct (String.eqb_spec dataset_type "inventory"); [contradiction |].
  destruct (String.eqb_spec dataset_type "products"); [contradiction |].
  reflexivity.
Qed.

Lemma dataset_log_unsupported to_datetime dataset_type df :
  dataset_type <> "sales" -> dataset_type <> "inventory" -> dataset_type <> "products" ->
  dataset_log to_datetime dataset_type df = [].
Proof.
  intros H1 H2 H3. unfold dataset_log.
  induction df as [| r rest IH]; simpl; [reflexivity |].
  rewrite IH. unfold row_log.
  rewrite record_issues_unsupported by assumption. reflexivity.
Qed.






(** C4.  The log [validate_dataset] returns depends on the data frame and
    the dataset kind only: it is the same from any two validator states,
    and the same again when the call is repeated on the validator the first
    call left. *)
Theorem validate_dataset_deterministic to_datetime self1 self2 df dataset_type :
  exists out,
    validate_dataset to_datetime self1 df dataset_type = Ret (mk_state out, out)
    /\ validate_dataset to_datetime self2 df dataset_type = Ret (mk_state out, out)
    /\ validate_dataset to_datetime (mk_state out) df dataset_type
       = Ret (mk_state out, out).
Proof.
  exists (dataset_log to_datetime dataset_type df).
  repeat split; apply validate_dataset_eq.
Qed.

(** C7.  With a dataset kind other than "sales", "inventory" and "products",
    [validate_dataset] returns the empty log on every data frame, and no
    record yields an issue. *)
Theorem unsupported_kind_empty_log to_datetime self df dataset_type :
  dataset_type <> "sales" ->
  dataset_type <> "inventory" ->
  dataset_type <> "products" ->
  validate_dataset to_datetime self df dataset_type = Ret (mk_state [], [])
  /\ forall row record_id,
       validate_record to_datetime dataset_type row record_id = Ret [].
Proof.
  intros H1 H2 H3. split.
  - rewrite validate_dataset_eq, dataset_log_unsupported by assumption. reflexivity.
  - intros row record_id.
    rewrite validate_record_eq, record_issues_unsupported by assumption. reflexivity.
Qed.

Lemma unsupported_kind_empty_log_witness :
  validate_dataset Calendar.to_datetime init
    (range_indexed [Samples.scenario_A; Samples.scenario_B; Samples.stock_row]) "stores"
  = Ret (mk_state [], [])
  /\ forall row record_id,
       validate_record Calendar.to_datetime "stores" row record_id = Ret [].
Proof.
  apply (unsupported_kind_empty_log Calendar.to_datetime init
           (range_indexed [Samples.scenario_A; Samples.scenario_B; Samples.stock_row])
           "stores"); discriminate.
Defined.

(** C9.  In a sales record, a gated field that is a key of the record and
    holds a null value ([None] or NaN) has its rule run: the rule returns
    invalid with a "Missing ..." diagnostic and the record validator emits
    INVALID_TIMESTAMP / "Missing timestamp" for [order_time],
    INVALID_CITY / "Missing city" for [city],
    INVALID_CHANNEL / "Missing channel" for [channel] and
    INVALID_VALUE / "Missing payment_status" for [payment_status]; the only
    MISSING_VALUE issue a sales record can carry is the one of
    [discount_pct]. *)
Theorem null_gated_field_fires to_datetime record record_id :
  exists out,
    validate_sales_record to_datetime record record_id = Ret out
    /\ (forall v, record !! "order_time" = Some v -> isna v = true ->
          In (mk_issue "INVALID_TIMESTAMP" (Some "Missing timestamp") "DROP") out)
    /\ (forall v, record !! "city" = Some v -> isna v = true ->
          In (mk_issue "INVALID_CITY" (Some "Missing city") "CORRECT") out)
    /\ (forall v, record !! "channel" = Some v -> isna v = true ->
          In (mk_issue "INVALID_CHANNEL" (Some "Missing channel") "CORRECT") out)
    /\ (forall v, record !! "payment_status" = Some v -> isna v = true ->
          In (mk_issue "INVALID_VALUE" (Some "Missing payment_status") "CORRECT") out)
    /\ (forall i, In i out -> issue_type i = "MISSING_VALUE" ->
          issue_detail i = Some "Missing discount_pct").
Proof.
  exists (sales_issues to_datetime record).
  split; [apply validate_sales_record_eq |].
  unfold sales_issues.
  repeat match goal with |- _ /\ _ => split end.
  - intros v Hk Hv.
    rewrite (present_invalid _ _ _ _ _ v "Missing timestamp" Hk)
      by (unfold validate_timestamp; rewrite Hv; reflexivity).
    simpl. left. reflexivity.
  - intros v Hk Hv.
    rewrite (present_invalid _ "city" _ _ _ v "Missing city" Hk)
      by (unfold validate_city; rewrite Hv; reflexivity).
    rewrite !in_app_iff. simpl. tauto.
  - intros v Hk Hv.
    rewrite (present_invalid _ "channel" _ _ _ v "Missing channel" Hk)
      by (unfold validate_channel; rewrite Hv; reflexivity).
    rewrite !in_app_iff. simpl. tauto.
  - intros v Hk Hv.
    rewrite (present_invalid _ "payment_status" _ _ _ v "Missing payment_status" Hk)
      by (unfold validate_payment_status; rewrite Hv; reflexivity).
    rewrite !in_app_iff. simpl. tauto.
  - intros i Hi Hty. rewrite !in_app_iff in Hi.
    repeat match type of Hi with
           | _ \/ _ => destruct Hi as [Hi | Hi]
           end;
      try (apply present_type in Hi; rewrite Hi in Hty; discriminate Hty);
      try (apply cost_issues_type in Hi; rewrite Hi in Hty; discriminate Hty).
    apply check_missing_In in Hi. rewrite Hi. reflexivity.
Qed.

Lemma null_gated_field_fires_witness :
  exists out,
    validate_sales_record Calendar.to_datetime Samples.null_fields (VStr "ROW_0") = Ret out
    /\ In (mk_issue "INVALID_TIMESTAMP" (Some "Missing timestamp") "DROP") out
    /\ In (mk_issue "INVALID_CITY" (Some "Missing city") "CORRECT") out
    /\ In (mk_issue "INVALID_CHANNEL" (Some "Missing channel") "CORRECT") out
    /\ In (mk_issue "INVALID_VALUE" (Some "Missing payment_status") "CORRECT") out.
Proof.
  destruct (null_gated_field_fires Calendar.to_datetime Samples.null_fields (VStr "ROW_0"))
    as (out & Hrun & Hts & Hcity & Hchannel & Hpay & _).
  exists out. split; [exact Hrun |].
  split; [apply (Hts VNone); reflexivity |].
  split; [apply (Hcity (VFloat nan)); reflexivity |].
  split; [apply (Hchannel VNone); reflexivity |].
  apply (Hpay (VFloat nan)); reflexivity.
Defined.

(** C10.  Every issue [validate_dataset] logs, for any data frame and any
    dataset kind, has a type that is one of the eight categories of the
    policy table and an action equal to the action of [get_policy] of that
    type, which is never the fallback SKIP. *)
Theorem logged_issues_follow_policy to_datetime self df dataset_type :
  exists out,
    validate_dataset to_datetime self df dataset_type = Ret (mk_state out, out)
    /\ Forall (fun li =>
                 is_Some (POLICIES !! logged_type li)
                 /\ logged_action li = action (get_policy (logged_type li))
                 /\ logged_action li <> "SKIP") out.
Proof.
  exists (dataset_log to_datetime dataset_type df).
  split; [apply validate_dataset_eq |].
  unfold dataset_log. apply Forall_flat_map, Forall_forall.
  intros [idx row] _. unfold row_log. apply Forall_map. simpl.
  apply (record_issues_follow to_datetime dataset_type row).
Qed.

(** ** The scenarios and boundaries of the specification *)

(** Scenario A: one issue, INVALID_TIMESTAMP with action DROP. *)
Example scenario_A_one_issue :
  validate_sales_record Calendar.to_datetime Samples.scenario_A (VStr "ORD000001")
  = Ret [mk_issue "INVALID_TIMESTAMP" (Some "Unparsable: 2024-13-40 99:99:99") "DROP"].
Proof. vm_compute. reflexivity. Qed.

(** Scenario C: a negative stock is an IMPOSSIBLE_VALUE, a stock of 120 is
    fine. *)
Example scenario_C_negative_stock :
  validate_inventory_record (<[ "stock_on_hand" := VInt (-50) ]> ∅) (VStr "ROW_0")
  = Ret [mk_issue "IMPOSSIBLE_VALUE" (Some "Negative stock: -50.0") "CORRECT"]
  /\ validate_inventory_record (<[ "stock_on_hand" := VInt 120 ]> ∅) (VStr "ROW_0")
     = Ret [].
Proof. split; vm_compute; reflexivity. Qed.

Example quantity_boundaries :
  validate_quantity (VInt 1) = Ret (true, None)
  /\ validate_quantity (VInt 0) = Ret (false, Some "Outside range [1, 100]: 0")
  /\ validate_quantity (VInt 100) = Ret (true, None)
  /\ validate_quantity (VInt 101) = Ret (false, Some "Outside range [1, 100]: 101")
  /\ validate_quantity (VStr "100.9") = Ret (true, None).
Proof. repeat split; vm_compute; reflexivity. Qed.

(** A missing cell: the quantity rule rejects NaN, because [int] raises on
    it; the price, stock and cost rules accept it. *)
Example nan_cells :
  validate_quantity (VFloat nan) = Ret (false, Some "Not numeric: nan")
  /\ validate_stock (VFloat nan) = Ret (true, None)
  /\ validate_cost_constraint (VFloat nan) (VInt 50) = Ret (true, None).
Proof. repeat split; vm_compute; reflexivity. Qed.

(** A NaN order identifier is true as a truth value, so it is the
    identifier logged, whatever the product identifier. *)
Example nan_order_id_is_kept :
  record_id_of (VInt 0) Samples.order_nan = VFloat nan
  /\ first_non_missing (VInt 0) Samples.order_nan = VStr "P0001".
Proof. split; vm_compute; reflexivity. Qed.

(** The text of a float, on the prices of the specification. *)
Example float_texts :
  float_repr (float_of_Z 60) = "60.0"
  /\ py_float (VStr "10000.01") = Ret (S754_finite false 5497563636438139 (-39))
  /\ float_repr (S754_finite false 5497563636438139 (-39)) = "10000.01"
  /\ py_float (VStr " 1_000.5e-1 ") = Ret (S754_finite false 7040392854975283 (-46))
  /\ py_float (VStr "ten") = Raise ValueError.
Proof. repeat split; vm_compute; reflexivity. Qed.

(** ** Further properties of the rules *)

Lemma int_of_float_unit_range f q :
  int_of_float f = Ret q ->
  (1 <= q <= 100 <-> at_least f 1 && below f 101 = true).
Proof.
  unfold at_least, below, exact_compare.
  destruct f as [s | s | | s m e]; unfold int_of_float; intros H;
    try discriminate H; injection H as <-.
  - simpl. split; [lia | discriminate].
  - destruct s; destruct (Z.leb_spec 0 e) as [He | He]; cbv beta iota.
    + assert (0 < 2 ^ e) by (apply Z.pow_pos_nonneg; lia).
      destruct (Z.compare_spec (Z.neg m * 2 ^ e) 1); nia.
    + assert (0 < 2 ^ (- e)) by (apply Z.pow_pos_nonneg; lia).
      assert (0 <= Z.pos m / 2 ^ (- e)) by (apply Z.div_pos; lia).
      destruct (Z.compare_spec (Z.neg m) (1 * 2 ^ (- e))); nia.
    + set (q := Z.pos m * 2 ^ e).
      destruct (Z.compare_spec q 1), (Z.compare_spec q 101);
        split; intros; try lia; try reflexivity; try discriminate.
    + assert (Hd : 0 < 2 ^ (- e)) by (apply Z.pow_pos_nonneg; lia).
      set (d := 2 ^ (- e)) in *. set (q := Z.pos m / d).
      assert (Hlo : d * q <= Z.pos m) by (apply Z.mul_div_le; lia).
      assert (Hhi : Z.pos m < d * Z.succ q) by (apply Z.mul_succ_div_gt; lia).
      destruct (Z.compare_spec (Z.pos m) (1 * d)),
        (Z.compare_spec (Z.pos m) (101 * d));
        split; intros; try nia; try reflexivity; try discriminate.
Qed.

Lemma int_of_float_raises_outside f e :
  int_of_float f = Raise e -> at_least f 1 && below f 101 = false.
Proof.
  destruct f as [s | s | | s m x]; try discriminate; intros _;
    try destruct s; reflexivity.
Qed.

(** The quantity rule truncates: when [float(v)] is the float [f], the rule
    returns valid iff the number [f] stands for is in [[1, 101)]; so 100.9
    passes and 0.9 does not, and NaN and the infinities never pass. *)
Theorem validate_quantity_truncates v f :
  py_float v = Ret f ->
  validate_quantity v = Ret (true, None) <-> at_least f 1 && below f 101 = true.
Proof.
  intros Hf. unfold validate_quantity. rewrite Hf.
  unfold mbind, exc_bind, bind, try_except, QUANTITY_MIN, QUANTITY_MAX.
  destruct (int_of_float f) as [q | e] eqn:Hq.
  - rewrite <- (int_of_float_unit_range f q Hq).
    destruct (Z.ltb_spec q 1), (Z.gtb_spec q 100); cbv beta iota;
      unfold orb; split; intros Hv; try lia; try reflexivity; discriminate Hv.
  - rewrite (int_of_float_raises_outside f e Hq). split; discriminate.
Qed.

Lemma validate_quantity_truncates_witness :
  validate_quantity (VStr "100.9") = Ret (true, None)
  /\ validate_quantity (VStr "0.9") <> Ret (true, None).
Proof.
  split.
  - apply (validate_quantity_truncates (VStr "100.9")
             (S754_finite false 7100206287526298 (-46))).
    + vm_compute. reflexivity.
    + vm_compute. reflexivity.
  - intros H.
    apply (validate_quantity_truncates (VStr "0.9")
             (S754_finite false 8106479329266893 (-53))) in H.
    + vm_compute in H. discriminate H.
    + vm_compute. reflexivity.
Defined.

(** The stock rule has a lower bound only: when [float(v)] is the float
    [f], the rule returns valid iff the number [f] stands for is not below
    zero; a negative zero, an infinite stock and NaN are accepted. *)
Theorem validate_stock_sign v f :
  py_float v = Ret f ->
  validate_stock v = Ret (true, None) <-> below f 0 = false.
Proof.
  intros Hf. unfold validate_stock. rewrite Hf.
  unfold mbind, exc_bind, bind, try_except, float_lt, below.
  rewrite SFcompare_zero_exact.
  destruct (exact_compare f 0) as [[ | | ] |]; split; intros H;
    try reflexivity; discriminate H.
Qed.

Lemma validate_stock_sign_witness :
  validate_stock (VStr "1e400") = Ret (true, None)
  /\ validate_stock (VStr "-0.0") = Ret (true, None)
  /\ validate_stock (VInt (-1)) <> Ret (true, None).
Proof.
  split; [| split].
  - apply (validate_stock_sign (VStr "1e400") (S754_infinity false)).
    + vm_compute. reflexivity.
    + reflexivity.
  - apply (validate_stock_sign (VStr "-0.0") (S754_zero true)).
    + vm_compute. reflexivity.
    + reflexivity.
  - intros H.
    apply (validate_stock_sign (VInt (-1)) (S754_finite true 4503599627370496 (-52))) in H.
    + vm_compute in H. discriminate H.
    + vm_compute. reflexivity.
Defined.

(** *** Strings: [strip], decimal text, the timestamp pattern *)

Lemma drop_while_head p l :
  match drop_while p l with
  | c :: _ => p c = false
  | [] => True
  end.
Proof.
  induction l as [| c l IH]; simpl; [exact I |].
  destruct (p c) eqn:Hc; [exact IH | exact Hc].
Qed.

Lemma drop_while_fixed p l :
  match l with
  | c :: _ => p c = false
  | [] => True
  end ->
  drop_while p l = l.
Proof. destruct l as [| c l]; simpl; [reflexivity | intros ->; reflexivity]. Qed.

Lemma drop_while_suffix p l : exists pre, l = pre ++ drop_while p l.
Proof.
  induction l as [| c l [pre IH]]; simpl.
  - exists []. reflexivity.
  - destruct (p c).
    + exists (c :: pre). simpl. rewrite <- IH. reflexivity.
    + exists []. reflexivity.
Qed.

Lemma strip_with_idempotent p l :
  strip_with p (strip_with p l) = strip_with p l.
Proof.
  unfold strip_with.
  set (A := drop_while p l).
  set (B := drop_while p (rev A)).
  assert (HB : drop_while p B = B) by (apply drop_while_fixed, drop_while_head).
  assert (HR : drop_while p (rev B) = rev B).
  { apply drop_while_fixed.
    destruct (drop_while_suffix p (rev A)) as [pre Hpre]. fold B in Hpre.
    assert (HA : A = rev B ++ rev pre)
      by (rewrite <- rev_app_distr, <- Hpre, rev_involutive; reflexivity).
    pose proof (drop_while_head p l) as Hhead. fold A in Hhead.
    destruct (rev B) as [| c R]; [exact I |].
    rewrite HA in Hhead. exact Hhead. }
  rewrite HR, rev_involutive, HB. reflexivity.
Qed.

Lemma strip_idempotent s : strip (strip s) = strip s.
Proof.
  unfold strip. rewrite list_ascii_of_string_of_list_ascii, strip_with_idempotent.
  reflexivity.
Qed.

Lemma strip_empty : strip "" = "".
Proof. reflexivity. Qed.

Lemma eqb_empty_false s : s <> "" -> String.eqb s "" = false.
Proof. intros H. destruct (String.eqb_spec s ""); [contradiction | reflexivity]. Qed.

(** The categorical rules do not see the white space around a text: a text
    that is not blank gets the verdict, diagnostic included, of its
    stripped form. *)
Theorem categorical_rules_ignore_padding s :
  strip s <> "" ->
  validate_city (VStr s) = validate_city (VStr (strip s))
  /\ validate_channel (VStr s) = validate_channel (VStr (strip s))
  /\ validate_payment_status (VStr s) = validate_payment_status (VStr (strip s)).
Proof.
  intros Hs.
  assert (Hne : s <> "") by (intros ->; apply Hs, strip_empty).
  unfold validate_city, validate_channel, validate_payment_status.
  simpl isna. simpl eq_empty. simpl py_str.
  rewrite (eqb_empty_false s Hne), (eqb_empty_false _ Hs), strip_idempotent.
  repeat split.
Qed.

Lemma categorical_rules_ignore_padding_witness :
  validate_city (VStr "  Abu Dhabi ") = Ret (true, None)
  /\ validate_channel (VStr " web") = Ret (false, Some "Invalid channel: web").
Proof.
  destruct (categorical_rules_ignore_padding "  Abu Dhabi ") as (Hcity & _ & _).
  { vm_compute. discriminate. }
  destruct (categorical_rules_ignore_padding " web") as (_ & Hchannel & _).
  { vm_compute. discriminate. }
  split.
  - rewrite Hcity. vm_compute. reflexivity.
  - rewrite Hchannel. vm_compute. reflexivity.
Defined.







Lemma match_atoms_lengths p :
  forall l, match_atoms p l = true ->
            length l = length p \/ length l = S (length p).
Proof.
  induction p as [| a p IH]; intros l H.
  - destruct l as [| c [| c' l]]; simpl in H; [left | right | discriminate H];
      reflexivity.
  - destruct l as [| c l]; simpl in H; [discriminate H |].
    apply andb_true_iff in H as [_ H].
    destruct (IH l H) as [E | E]; simpl; rewrite E; [left | right]; reflexivity.
Qed.

Lemma match_atoms_final_newline p :
  forall l, length l = length p ->
            match_atoms p (l ++ ["010"%char]) = match_atoms p l.
Proof.
  induction p as [| a p IH]; intros l Hl.
  - destruct l; [reflexivity | discriminate Hl].
  - destruct l as [| c l]; [discriminate Hl |].
    simpl. rewrite IH by (simpl in Hl; lia). reflexivity.
Qed.

Lemma list_ascii_of_string_append s t :
  list_ascii_of_string (s +:+ t) = list_ascii_of_string s ++ list_ascii_of_string t.
Proof. induction s as [| c s IH]; simpl; [| rewrite IH]; reflexivity. Qed.

Lemma length_list_ascii_of_string s :
  length (list_ascii_of_string s) = String.length s.
Proof. induction s as [| c s IH]; simpl; [| rewrite IH]; reflexivity. Qed.

(** The timestamp pattern ends in [$], which also matches before a final
    newline: a text that matches has 19 characters or 20, and a text of 19
    characters matches exactly when it does with a newline appended. *)
Theorem timestamp_pattern_final_newline s :
  (re_match TIMESTAMP_PATTERN s = true -> strlen s = 19 \/ strlen s = 20)
  /\ (strlen s = 19 ->
      re_match TIMESTAMP_PATTERN (s +:+ String "010" "")
      = re_match TIMESTAMP_PATTERN s).
Proof.
  unfold re_match, strlen. split.
  - intros H. apply match_atoms_lengths in H.
    rewrite length_list_ascii_of_string in H.
    change (length TIMESTAMP_PATTERN) with 19%nat in H. lia.
  - intros H. rewrite list_ascii_of_string_append.
    change (list_ascii_of_string (String "010" "")) with ["010"%char].
    apply match_atoms_final_newline.
    rewrite length_list_ascii_of_string.
    change (length TIMESTAMP_PATTERN) with 19%nat. lia.
Qed.

Lemma timestamp_pattern_final_newline_witness :
  strlen "2024-09-01 00:00:00" = 19
  /\ re_match TIMESTAMP_PATTERN ("2024-09-01 00:00:00" +:+ String "010" "") = true.
Proof.
  split; [reflexivity |].
  destruct (timestamp_pattern_final_newline "2024-09-01 00:00:00") as [_ H].
  rewrite H; reflexivity.
Defined.

Lemma to_int_not_nil z : Z.to_int z <> Decimal.Pos Decimal.Nil
                         /\ Z.to_int z <> Decimal.Neg Decimal.Nil.
Proof.
  destruct z as [| p | p]; simpl; split; try discriminate;
    intros H; injection H as H; apply (DecimalPos.Unsigned.to_uint_nonnil p H).
Qed.

Lemma str_of_Z_inj a b : str_of_Z a = str_of_Z b -> a = b.
Proof.
  unfold str_of_Z. intros H.
  apply DecimalZ.to_int_inj.
  destruct (to_int_not_nil a) as [Ha1 Ha2], (to_int_not_nil b) as [Hb1 Hb2].
  pose proof (NilZero.isi _ Ha1 Ha2) as Ea.
  pose proof (NilZero.isi _ Hb1 Hb2) as Eb.
  rewrite H in Ea. rewrite Ea in Eb. injection Eb as Eb. exact Eb.
Qed.

(** ** Further properties of the record validators *)

Lemma validate_sales_record_ext to_datetime r1 r2 id1 id2 :
  r1 !! "order_time" = r2 !! "order_time" ->
  r1 !! "selling_price_aed" = r2 !! "selling_price_aed" ->
  r1 !! "qty" = r2 !! "qty" ->
  r1 !! "city" = r2 !! "city" ->
  r1 !! "channel" = r2 !! "channel" ->
  r1 !! "payment_status" = r2 !! "payment_status" ->
  r1 !! "unit_cost_aed" = r2 !! "unit_cost_aed" ->
  r1 !! "base_price_aed" = r2 !! "base_price_aed" ->
  missing r1 "discount_pct" = missing r2 "discount_pct" ->
  validate_sales_record to_datetime r1 id1 = validate_sales_record to_datetime r2 id2.
Proof.
  intros H1 H2 H3 H4 H5 H6 H7 H8 H9.
  unfold validate_sales_record, when_present, check_cost_constraint, check_missing.
  rewrite H1, H2, H3, H4, H5, H6, H7, H8, H9. reflexivity.
Qed.

(** A record validator reads the fields it checks and nothing else: two
    records that agree on them get the same issues, whatever their other
    fields and whatever record identifier is passed. *)
Theorem record_validators_read_their_fields to_datetime r1 r2 id1 id2 :
  ((forall k, In k sales_fields -> r1 !! k = r2 !! k) ->
   validate_sales_record to_datetime r1 id1 = validate_sales_record to_datetime r2 id2)
  /\ (r1 !! "stock_on_hand" = r2 !! "stock_on_hand" ->
      validate_inventory_record r1 id1 = validate_inventory_record r2 id2)
  /\ (r1 !! "unit_cost_aed" = r2 !! "unit_cost_aed" ->
      r1 !! "base_price_aed" = r2 !! "base_price_aed" ->
      validate_products_record r1 id1 = validate_products_record r2 id2).
Proof.
  split; [| split].
  - intros H. apply validate_sales_record_ext;
      try (apply H; simpl; tauto).
    unfold missing. rewrite (H "discount_pct") by (simpl; tauto). reflexivity.
  - intros H. unfold validate_inventory_record, when_present. rewrite H. reflexivity.
  - intros H1 H2.
    unfold validate_products_record, check_cost_constraint, check_missing, missing.
    rewrite H1, H2. reflexivity.
Qed.

Lemma record_validators_read_their_fields_witness :
  validate_sales_record Calendar.to_datetime
    (<[ "brand" := VStr "Nike" ]> Samples.scenario_B) (VStr "ORD000001")
  = validate_sales_record Calendar.to_datetime Samples.scenario_B VNone
  /\ validate_inventory_record (<[ "reorder_point" := VInt 20 ]> Samples.stock_row) VNone
     = validate_inventory_record Samples.stock_row (VStr "P0001").
Proof.
  destruct (record_validators_read_their_fields Calendar.to_datetime
              (<[ "brand" := VStr "Nike" ]> Samples.scenario_B) Samples.scenario_B
              (VStr "ORD000001") VNone) as (Hsales & _ & _).
  destruct (record_validators_read_their_fields Calendar.to_datetime
              (<[ "reorder_point" := VInt 20 ]> Samples.stock_row) Samples.stock_row
              VNone (VStr "P0001")) as (_ & Hinv & _).
  split.
  - apply Hsales. intros k Hk. simpl in Hk.
    repeat destruct Hk as [<- | Hk]; try reflexivity. destruct Hk.
  - apply Hinv. reflexivity.
Defined.

(** [discount_pct] is checked for presence only: with any value that is not
    null, be it a text or an absurd number, a sales record gets the issues
    it gets with a discount of zero. *)
Theorem discount_value_is_not_validated to_datetime record record_id v :
  isna v = false ->
  validate_sales_record to_datetime (<[ "discount_pct" := v ]> record) record_id
  = validate_sales_record to_datetime (<[ "discount_pct" := VInt 0 ]> record) record_id.
Proof.
  intros Hv.
  apply validate_sales_record_ext;
    try (rewrite !lookup_insert_ne by discriminate; reflexivity).
  unfold missing. rewrite !lookup_insert_eq. exact Hv.
Qed.

Lemma discount_value_is_not_validated_witness :
  validate_sales_record Calendar.to_datetime
    (<[ "discount_pct" := VStr "abc" ]> Samples.scenario_A) VNone
  = validate_sales_record Calendar.to_datetime
      (<[ "discount_pct" := VInt 0 ]> Samples.scenario_A) VNone.
Proof.
  apply (discount_value_is_not_validated Calendar.to_datetime Samples.scenario_A
           VNone (VStr "abc")).
  reflexivity.
Defined.

Lemma cost_constraint_null_cost cost price :
  isna cost = true -> validate_cost_constraint cost price = Ret (true, None).
Proof.
  intros H. unfold validate_cost_constraint.
  destruct cost as [| z | f | s]; try discriminate H; [reflexivity |].
  destruct f; try discriminate H.
  simpl. destruct (py_float price) as [p | e]; [| reflexivity].
  simpl. unfold float_gt. simpl. reflexivity.
Qed.

Lemma issues_of_length r ty act : (length (issues_of r ty act) <= 1)%nat.
Proof. unfold issues_of. destruct (fst r); simpl; lia. Qed.

Lemma present_length record key rule ty act :
  (length (present record key rule ty act) <= 1)%nat.
Proof.
  unfold present. destruct (record !! key); [apply issues_of_length | simpl; lia].
Qed.

Lemma cost_issues_length record : (length (cost_issues record) <= 1)%nat.
Proof.
  unfold cost_issues.
  destruct (record !! "unit_cost_aed"); [| simpl; lia].
  destruct (record !! "base_price_aed"); [apply issues_of_length | simpl; lia].
Qed.

Lemma cost_issues_null_cost record :
  missing record "unit_cost_aed" = true -> cost_issues record = [].
Proof.
  unfold missing, cost_issues.
  destruct (record !! "unit_cost_aed") as [cost |]; [| reflexivity].
  intros H. destruct (record !! "base_price_aed") as [price |]; [| reflexivity].
  rewrite (cost_constraint_null_cost cost price H). reflexivity.
Qed.

Lemma products_issues_length record : (length (products_issues record) <= 1)%nat.
Proof.
  unfold products_issues, check_missing.
  destruct (missing record "unit_cost_aed") eqn:Hm.
  - rewrite (cost_issues_null_cost record Hm). simpl. lia.
  - apply cost_issues_length.
Qed.

(** A product record yields at most one issue: when [unit_cost_aed] is
    absent or null the record gets the MISSING_VALUE issue alone, because
    the cost rule is skipped or passes on a null cost; otherwise it gets at
    most one issue, of type CONSTRAINT_VIOLATION. *)
Theorem products_record_at_most_one_issue record record_id :
  exists out,
    validate_products_record record record_id = Ret out
    /\ (length out <= 1)%nat
    /\ (if missing record "unit_cost_aed"
        then out = [mk_issue "MISSING_VALUE" (Some "Missing unit_cost_aed") "IMPUTE"]
        else Forall (fun i => issue_type i = "CONSTRAINT_VIOLATION"
                              /\ action_taken i = "CAP") out).
Proof.
  exists (products_issues record).
  split; [apply validate_products_record_eq |].
  split; [apply products_issues_length |].
  unfold products_issues, check_missing.
  destruct (missing record "unit_cost_aed") eqn:Hm.
  - rewrite (cost_issues_null_cost record Hm). reflexivity.
  - simpl. unfold cost_issues.
    destruct (record !! "unit_cost_aed"); [| constructor].
    destruct (record !! "base_price_aed"); [| constructor].
    unfold issues_of. destruct (fst _); constructor; [split; reflexivity | constructor].
Qed.

Lemma issues_of_types r ty act :
  map issue_type (issues_of r ty act) `sublist_of` [ty].
Proof.
  unfold issues_of. destruct (fst r); simpl.
  - apply sublist_nil_l.
  - reflexivity.
Qed.

Lemma present_types record key rule ty act :
  map issue_type (present record key rule ty act) `sublist_of` [ty].
Proof.
  unfold present. destruct (record !! key); [apply issues_of_types | apply sublist_nil_l].
Qed.

Lemma cost_issues_types record :
  map issue_type (cost_issues record) `sublist_of` ["CONSTRAINT_VIOLATION"].
Proof.
  unfold cost_issues.
  destruct (record !! "unit_cost_aed"); [| apply sublist_nil_l].
  destruct (record !! "base_price_aed"); [apply issues_of_types | apply sublist_nil_l].
Qed.

Lemma check_missing_types record key :
  map issue_type (check_missing record key) `sublist_of` ["MISSING_VALUE"].
Proof.
  unfold check_missing. destruct (missing record key); simpl;
    [reflexivity | apply sublist_nil_l].
Qed.

Lemma sales_issues_types to_datetime record :
  map issue_type (sales_issues to_datetime record) `sublist_of` sales_rule_order.
Proof.
  unfold sales_issues. rewrite !map_app.
  change sales_rule_order
    with (["INVALID_TIMESTAMP"] ++ ["OUTLIER_VALUE"] ++ ["OUTLIER_VALUE"]
          ++ ["INVALID_CITY"] ++ ["INVALID_CHANNEL"] ++ ["INVALID_VALUE"]
          ++ ["CONSTRAINT_VIOLATION"] ++ ["MISSING_VALUE"]).
  repeat apply sublist_app;
    try apply present_types; try apply cost_issues_types; apply check_missing_types.
Qed.

(** A sales record yields its issues in the order of the checks: the types
    of the issues, read in order, are
    INVALID_TIMESTAMP, OUTLIER_VALUE (price), OUTLIER_VALUE (quantity),
    INVALID_CITY, INVALID_CHANNEL, INVALID_VALUE, CONSTRAINT_VIOLATION,
    MISSING_VALUE with some of them left out; so there are at most eight. *)
Theorem sales_issues_follow_rule_order to_datetime record record_id :
  exists out,
    validate_sales_record to_datetime record record_id = Ret out
    /\ map issue_type out `sublist_of` sales_rule_order
    /\ (length out <= 8)%nat.
Proof.
  exists (sales_issues to_datetime record).
  split; [apply validate_sales_record_eq |].
  split; [apply sales_issues_types |].
  pose proof (sublist_length _ _ (sales_issues_types to_datetime record)) as H.
  rewrite length_map in H. exact H.
Qed.

(** *** A record without issues *)

Lemma validate_timestamp_shape to_datetime v :
  validate_timestamp to_datetime v = Ret (true, None)
  \/ exists msg, validate_timestamp to_datetime v = Ret (false, Some msg).
Proof.
  unfold validate_timestamp.
  destruct (isna v || eq_empty v); [right; eexists; reflexivity |].
  destruct (negb _); [right; eexists; reflexivity |].
  destruct (to_datetime v); [left | right; eexists]; reflexivity.
Qed.

Lemma validate_price_shape v :
  validate_price v = Ret (true, None)
  \/ exists msg, validate_price v = Ret (false, Some msg).
Proof.
  unfold validate_price.
  destruct (py_float v) as [p | e]; [| right; eexists; reflexivity].
  unfold mbind, exc_bind, bind.
  destruct (float_lt _ _ || float_gt _ _); [right; eexists | left]; reflexivity.
Qed.

Lemma validate_quantity_shape v :
  validate_quantity v = Ret (true, None)
  \/ exists msg, validate_quantity v = Ret (false, Some msg).
Proof.
  unfold validate_quantity.
  destruct (py_float v) as [f | e]; [| right; eexists; reflexivity].
  unfold mbind, exc_bind, bind.
  destruct (int_of_float f) as [q | e]; [| right; eexists; reflexivity].
  destruct ((q <? _) || (q >? _)); [right; eexists | left]; reflexivity.
Qed.

Lemma validate_city_shape v :
  validate_city v = Ret (true, None)
  \/ exists msg, validate_city v = Ret (false, Some msg).
Proof.
  unfold validate_city.
  destruct (isna v || eq_empty v); [right; eexists; reflexivity |].
  destruct (negb _); [right; eexists | left]; reflexivity.
Qed.

Lemma validate_channel_shape v :
  validate_channel v = Ret (true, None)
  \/ exists msg, validate_channel v = Ret (false, Some msg).
Proof.
  unfold validate_channel.
  destruct (isna v || eq_empty v); [right; eexists; reflexivity |].
  destruct (negb _); [right; eexists | left]; reflexivity.
Qed.

Lemma validate_payment_status_shape v :
  validate_payment_status v = Ret (true, None)
  \/ exists msg, validate_payment_status v = Ret (false, Some msg).
Proof.
  unfold validate_payment_status.
  destruct (isna v || eq_empty v); [right; eexists; reflexivity |].
  destruct (negb _); [right; eexists | left]; reflexivity.
Qed.

Lemma validate_cost_constraint_shape cost price :
  validate_cost_constraint cost price = Ret (true, None)
  \/ exists msg, validate_cost_constraint cost price = Ret (false, Some msg).
Proof.
  unfold validate_cost_constraint.
  destruct (py_float cost) as [c | e]; [| left; reflexivity].
  unfold mbind, exc_bind, bind.
  destruct (py_float price) as [p | e]; [| left; reflexivity].
  destruct (float_gt c p); [right; eexists | left]; reflexivity.
Qed.

Lemma validate_stock_shape v :
  validate_stock v = Ret (true, None)
  \/ exists msg, validate_stock v = Ret (false, Some msg).
Proof.
  unfold validate_stock.
  destruct (py_float v) as [s | e]; [| right; eexists; reflexivity].
  unfold mbind, exc_bind, bind.
  destruct (float_lt _ _); [right; eexists | left]; reflexivity.
Qed.

Lemma issues_of_nil c ty act :
  (c = Ret (true, None) \/ exists msg, c = Ret (false, Some msg)) ->
  issues_of (outcome c) ty act = [] <-> c = Ret (true, None).
Proof.
  intros [-> | [msg ->]]; unfold issues_of; simpl; split; intros H;
    try reflexivity; discriminate H.
Qed.

Lemma present_nil record key rule ty act :
  (forall v, rule v = Ret (true, None) \/ exists msg, rule v = Ret (false, Some msg)) ->
  present record key rule ty act = [] <-> accepts rule record key.
Proof.
  intros Hshape. unfold present, accepts.
  destruct (record !! key) as [v |].
  - rewrite (issues_of_nil _ _ _ (Hshape v)). split.
    + intros H w [= <-]. exact H.
    + intros H. apply H. reflexivity.
  - split; [intros _ w [=] | reflexivity].
Qed.

Lemma cost_issues_nil record :
  cost_issues record = []
  <-> (forall cost price,
         record !! "unit_cost_aed" = Some cost ->
         record !! "base_price_aed" = Some price ->
         validate_cost_constraint cost price = Ret (true, None)).
Proof.
  unfold cost_issues.
  destruct (record !! "unit_cost_aed") as [cost |];
    [| split; [intros _ c p [=] | reflexivity]].
  destruct (record !! "base_price_aed") as [price |];
    [| split; [intros _ c p _ [=] | reflexivity]].
  rewrite (issues_of_nil _ _ _ (validate_cost_constraint_shape cost price)). split.
  - intros H c p [= <-] [= <-]. exact H.
  - intros H. apply H; reflexivity.
Qed.

Lemma check_missing_nil record key :
  check_missing record key = [] <-> missing record key = false.
Proof.
  unfold check_missing. destruct (missing record key); split; intros H;
    try reflexivity; discriminate H.
Qed.

(** A sales record is clean, that is gets no issue, exactly when every
    gated field it has passes its rule, the cost does not exceed the price
    when it has both, and it has a [discount_pct] that is not null. *)
Theorem sales_record_clean_iff to_datetime record record_id :
  validate_sales_record to_datetime record record_id = Ret []
  <-> accepts (validate_timestamp to_datetime) record "order_time"
      /\ accepts validate_price record "selling_price_aed"
      /\ accepts validate_quantity record "qty"
      /\ accepts validate_city record "city"
      /\ accepts validate_channel record "channel"
      /\ accepts validate_payment_status record "payment_status"
      /\ (forall cost price,
            record !! "unit_cost_aed" = Some cost ->
            record !! "base_price_aed" = Some price ->
            validate_cost_constraint cost price = Ret (true, None))
      /\ missing record "discount_pct" = false.
Proof.
  rewrite validate_sales_record_eq. unfold sales_issues.
  rewrite <- (present_nil record "order_time" _ "INVALID_TIMESTAMP" "DROP"
                (validate_timestamp_shape to_datetime)).
  rewrite <- (present_nil record "selling_price_aed" _ "OUTLIER_VALUE" "CAP"
                validate_price_shape).
  rewrite <- (present_nil record "qty" _ "OUTLIER_VALUE" "CAP" validate_quantity_shape).
  rewrite <- (present_nil record "city" _ "INVALID_CITY" "CORRECT" validate_city_shape).
  rewrite <- (present_nil record "channel" _ "INVALID_CHANNEL" "CORRECT"
                validate_channel_shape).
  rewrite <- (present_nil record "payment_status" _ "INVALID_VALUE" "CORRECT"
                validate_payment_status_shape).
  rewrite <- cost_issues_nil, <- check_missing_nil.
  split.
  - intros [= H].
    repeat match type of H with
           | _ ++ _ = [] => apply app_eq_nil in H as [? H]
           end.
    repeat split; assumption.
  - intros (-> & -> & -> & -> & -> & -> & -> & ->). reflexivity.
Qed.

Lemma sales_record_clean_iff_witness :
  validate_sales_record Calendar.to_datetime
    (<[ "order_time" := VStr "2024-09-01 00:00:00" ]> Samples.scenario_A) VNone
  = Ret []
  /\ accepts validate_city Samples.scenario_A "city".
Proof.
  split.
  - apply (proj2 (sales_record_clean_iff Calendar.to_datetime
                    (<[ "order_time" := VStr "2024-09-01 00:00:00" ]> Samples.scenario_A)
                    VNone)).
    unfold accepts.
    repeat split; try (intros v [= <-]; vm_compute; reflexivity);
      try (intros c p [=]).
  - assert (H : validate_sales_record Calendar.to_datetime
                  (<[ "order_time" := VStr "2024-09-01 00:00:00" ]> Samples.scenario_A)
                  VNone = Ret []) by (vm_compute; reflexivity).
    apply (proj1 (sales_record_clean_iff Calendar.to_datetime _ VNone)) in H.
    destruct H as (_ & _ & _ & Hcity & _).
    intros v Hv. apply Hcity.
    rewrite lookup_insert_ne by discriminate. exact Hv.
Defined.

(** ** Further properties of the dataset validator *)

Lemma dataset_log_app to_datetime dataset_type df1 df2 :
  dataset_log to_datetime dataset_type (df1 ++ df2)
  = dataset_log to_datetime dataset_type df1 ++ dataset_log to_datetime dataset_type df2.
Proof. unfold dataset_log. apply flat_map_app. Qed.

(** The log of a data frame cut in two is the log of the first part
    followed by the log of the second: rows are validated independently and
    logged in row order, so a data frame can be validated in chunks. *)
Theorem validate_dataset_by_chunks to_datetime self df1 df2 dataset_type :
  exists out1 out2,
    validate_dataset to_datetime self df1 dataset_type = Ret (mk_state out1, out1)
    /\ validate_dataset to_datetime self df2 dataset_type = Ret (mk_state out2, out2)
    /\ validate_dataset to_datetime self (df1 ++ df2) dataset_type
       = Ret (mk_state (out1 ++ out2), out1 ++ out2).
Proof.
  exists (dataset_log to_datetime dataset_type df1),
         (dataset_log to_datetime dataset_type df2).
  rewrite <- dataset_log_app. repeat split; apply validate_dataset_eq.
Qed.

Lemma sales_issues_length to_datetime record :
  (length (sales_issues to_datetime record) <= 8)%nat.
Proof.
  pose proof (sublist_length _ _ (sales_issues_types to_datetime record)) as H.
  rewrite length_map in H. exact H.
Qed.

Lemma record_issues_length to_datetime dataset_type record :
  (length (record_issues to_datetime dataset_type record)
   <= if String.eqb dataset_type "sales" then 8 else 1)%nat.
Proof.
  unfold record_issues.
  destruct (String.eqb dataset_type "sales"); [apply sales_issues_length |].
  destruct (String.eqb dataset_type "inventory"); [apply present_length |].
  destruct (String.eqb dataset_type "products"); [apply products_issues_length |].
  simpl. lia.
Qed.

Lemma dataset_log_length to_datetime dataset_type df :
  (length (dataset_log to_datetime dataset_type df)
   <= (if String.eqb dataset_type "sales" then 8 else 1) * length df)%nat.
Proof.
  unfold dataset_log.
  induction df as [| r df IH]; simpl; [lia |].
  rewrite length_app. unfold row_log at 1. rewrite length_map.
  pose proof (record_issues_length to_datetime dataset_type (snd r)). lia.
Qed.

(** The log is bounded by the size of the data frame: at most eight issues
    a row for sales, and at most one issue a row for any other kind. *)
Theorem dataset_log_is_bounded to_datetime self df dataset_type :
  exists out,
    validate_dataset to_datetime self df dataset_type = Ret (mk_state out, out)
    /\ (length out
        <= (if String.eqb dataset_type "sales" then 8 else 1) * length df)%nat.
Proof.
  exists (dataset_log to_datetime dataset_type df).
  split; [apply validate_dataset_eq | apply dataset_log_length].
Qed.

Lemma truthy_py_or a b : truthy (py_or a b) = truthy a || truthy b.
Proof. unfold py_or. destruct (truthy a) eqn:Ha; simpl; [exact Ha | reflexivity]. Qed.

Lemma record_id_of_truthy idx row : truthy (record_id_of idx row) = true.
Proof.
  unfold record_id_of. rewrite !truthy_py_or.
  replace (truthy (VStr ("ROW_" +:+ py_str idx))) with true by reflexivity.
  rewrite !orb_true_r. reflexivity.
Qed.

Lemma dataset_log_forall to_datetime dataset_type df (P : logged_issue -> Prop) :
  (forall idx row i,
     In i (record_issues to_datetime dataset_type row) ->
     P (stamp (record_id_of idx row) i)) ->
  Forall P (dataset_log to_datetime dataset_type df).
Proof.
  intros H. apply List.Forall_forall. intros li Hli.
  unfold dataset_log in Hli. apply in_flat_map in Hli as ([idx row] & _ & Hli).
  unfold row_log in Hli. simpl in Hli.
  apply in_map_iff in Hli as (i & <- & Hi). apply H. exact Hi.
Qed.

(** A logged identifier is never [None], an empty text or zero: the chain
    of [or] ends in a text that starts with "ROW_", so the identifier it
    selects is always true as a truth value. *)
Theorem record_identifier_is_truthy to_datetime self df dataset_type :
  exists out,
    validate_dataset to_datetime self df dataset_type = Ret (mk_state out, out)
    /\ Forall (fun li => truthy (record_identifier li) = true
                         /\ record_identifier li <> VNone
                         /\ record_identifier li <> VStr ""
                         /\ record_identifier li <> VInt 0) out.
Proof.
  exists (dataset_log to_datetime dataset_type df).
  split; [apply validate_dataset_eq |].
  apply dataset_log_forall. intros idx row i _. simpl.
  pose proof (record_id_of_truthy idx row) as H.
  repeat split; try exact H; intros E; rewrite E in H; discriminate H.
Qed.

Lemma record_id_of_fallback idx row :
  truthy (row_get row "order_id") = false ->
  truthy (row_get row "product_id") = false ->
  record_id_of idx row = VStr ("ROW_" +:+ py_str idx).
Proof. intros Ho Hp. unfold record_id_of, py_or. rewrite Ho, Hp. reflexivity. Qed.

(** The fallback identifier tells rows apart: two rows without a usable
    order or product identifier and with integer index labels get
    "ROW_<i>" and "ROW_<j>", and these are equal only if [i = j]. *)
Theorem fallback_identifier_is_injective i j row1 row2 :
  truthy (row_get row1 "order_id") = false ->
  truthy (row_get row1 "product_id") = false ->
  truthy (row_get row2 "order_id") = false ->
  truthy (row_get row2 "product_id") = false ->
  record_id_of (VInt i) row1 = VStr ("ROW_" +:+ str_of_Z i)
  /\ (record_id_of (VInt i) row1 = record_id_of (VInt j) row2 -> i = j).
Proof.
  intros H1 H2 H3 H4.
  rewrite (record_id_of_fallback (VInt i) row1 H1 H2),
          (record_id_of_fallback (VInt j) row2 H3 H4).
  split; [reflexivity |].
  simpl. intros [= E]. apply str_of_Z_inj. exact E.
Qed.

Lemma fallback_identifier_is_injective_witness :
  record_id_of (VInt 7) Samples.scenario_B = VStr "ROW_7"
  /\ (record_id_of (VInt 7) Samples.scenario_B
      = record_id_of (VInt 7) Samples.null_fields -> 7 = 7).
Proof.
  apply (fallback_identifier_is_injective 7 7 Samples.scenario_B Samples.null_fields);
    reflexivity.
Defined.

(** The dataset kind decides which categories can be logged: inventory
    logs IMPOSSIBLE_VALUE / CORRECT only, products logs MISSING_VALUE and
    CONSTRAINT_VIOLATION only, and sales never logs IMPOSSIBLE_VALUE. *)
Theorem categories_by_dataset_kind to_datetime self df :
  (exists out,
     validate_dataset to_datetime self df "inventory" = Ret (mk_state out, out)
     /\ Forall (fun li => logged_type li = "IMPOSSIBLE_VALUE"
                          /\ logged_action li = "CORRECT") out)
  /\ (exists out,
        validate_dataset to_datetime self df "products" = Ret (mk_state out, out)
        /\ Forall (fun li => logged_type li = "MISSING_VALUE"
                             \/ logged_type li = "CONSTRAINT_VIOLATION") out)
  /\ (exists out,
        validate_dataset to_datetime self df "sales" = Ret (mk_state out, out)
        /\ Forall (fun li => In (logged_type li) sales_rule_order) out).
Proof.
  split; [| split].
  - exists (dataset_log to_datetime "inventory" df).
    split; [apply validate_dataset_eq |].
    apply dataset_log_forall. intros idx row i Hi. simpl.
    change (record_issues to_datetime "inventory" row)
      with (inventory_issues row) in Hi.
    unfold inventory_issues, present in Hi.
    destruct (row !! "stock_on_hand"); [| destruct Hi].
    unfold issues_of in Hi. destruct (fst _); [destruct Hi |].
    destruct Hi as [<- | []]. split; reflexivity.
  - exists (dataset_log to_datetime "products" df).
    split; [apply validate_dataset_eq |].
    apply dataset_log_forall. intros idx row i Hi. simpl.
    change (record_issues to_datetime "products" row)
      with (products_issues row) in Hi.
    unfold products_issues in Hi. apply in_app_iff in Hi as [Hi | Hi].
    + left. apply check_missing_In in Hi. rewrite Hi. reflexivity.
    + right. apply (cost_issues_type row). exact Hi.
  - exists (dataset_log to_datetime "sales" df).
    split; [apply validate_dataset_eq |].
    apply dataset_log_forall. intros idx row i Hi.
    change (logged_type (stamp (record_id_of idx row) i)) with (issue_type i).
    change (record_issues to_datetime "sales" row)
      with (sales_issues to_datetime row) in Hi.
    pose proof (sales_issues_types to_datetime row) as Hsub.
    apply list_elem_of_In.
    apply (sublist_subseteq _ _ Hsub).
    apply list_elem_of_In, in_map. exact Hi.
Qed.

(** ** Further properties of the policy table *)

Lemma POLICIES_lookup issue_type :
  POLICIES !! issue_type = None
  \/ exists p, POLICIES !! issue_type = Some p
               /\ In (action p) ["DROP"; "CAP"; "IMPUTE"; "CORRECT"].
Proof.
  unfold POLICIES.
  repeat match goal with
         | |- context [<[ ?k := ?p ]> _ !! issue_type] =>
             destruct (String.eqb_spec issue_type k) as [-> | Hne];
             [ right; exists p; split; [vm_compute; reflexivity | simpl; tauto]
             | rewrite lookup_insert_ne by (intros E; apply Hne; symmetry; exact E);
               clear Hne ]
         end.
  left. apply lookup_empty.
Qed.

(** The action of a policy is one of DROP, CAP, IMPUTE, CORRECT and SKIP,
    and [get_policy] answers SKIP exactly for the types the table does not
    know: SKIP tells the caller that the type is unknown. *)
Theorem skip_iff_unknown_type issue_type :
  In (action (get_policy issue_type)) ["DROP"; "CAP"; "IMPUTE"; "CORRECT"; "SKIP"]
  /\ (action (get_policy issue_type) = "SKIP" <-> POLICIES !! issue_type = None).
Proof.
  unfold get_policy.
  destruct (POLICIES_lookup issue_type) as [-> | (p & -> & Hp)]; simpl.
  - split; [auto 10 | split; reflexivity].
  - split; [simpl in Hp; tauto |].
    split; [| discriminate].
    intros E. rewrite E in Hp. simpl in Hp.
    repeat destruct Hp as [Hp | Hp]; try discriminate Hp. destruct Hp.
Qed.

(** ** The generated sample data under the validator *)

Import SampleData.







Lemma generated_stock z :
  10 <= z <= 500 -> validate_stock (VInt z) = Ret (true, None).
Proof.
  intros Hz.
  assert (Hall : forallb
            (fun k => match validate_stock (VInt (10 + Z.of_nat k)) with
                      | Ret (true, None) => true
                      | _ => false
                      end)
            (seq 0 491) = true) by (vm_compute; reflexivity).
  rewrite forallb_forall in Hall.
  specialize (Hall (Z.to_nat (z - 10))).
  assert (Hin : In (Z.to_nat (z - 10)) (seq 0 491)) by (apply in_seq; lia).
  apply Hall in Hin.
  replace (10 + Z.of_nat (Z.to_nat (z - 10))) with z in Hin by lia.
  destruct (validate_stock (VInt z)) as [[[] [msg |]] | e];
    try discriminate Hin. reflexivity.
Qed.



Lemma dataset_log_nil to_datetime dataset_type df :
  (forall r, In r df -> record_issues to_datetime dataset_type (snd r) = []) ->
  dataset_log to_datetime dataset_type df = [].
Proof.
  intros H. unfold dataset_log.
  induction df as [| r df IH]; simpl; [reflexivity |].
  rewrite IH by (intros r' Hr'; apply H; right; exact Hr').
  unfold row_log. rewrite (H r) by (left; reflexivity). reflexivity.
Qed.






(** The inventory rows the generator builds are clean: a stock drawn in
    [[10, 500]] passes the stock rule, so a frame of such rows logs no
    issue for kind "inventory". *)
Theorem sample_inventory_validate_clean to_datetime self df :
  Forall (fun r => exists date product store stock reorder lead,
                     10 <= stock <= 500
                     /\ snd r = inventory_row date product store stock reorder lead) df ->
  validate_dataset to_datetime self df "inventory" = Ret (mk_state [], []).
Proof.
  intros Hrows.
  rewrite validate_dataset_eq, dataset_log_nil; [reflexivity |].
  intros r Hr. rewrite List.Forall_forall in Hrows.
  destruct (Hrows r Hr) as (date & product & store & stock & reorder & lead & Hs & ->).
  change (record_issues to_datetime "inventory" ?row) with (inventory_issues row).
  unfold inventory_issues, present, inventory_row.
  rewrite !lookup_insert_ne by discriminate. rewrite lookup_insert_eq.
  rewrite (generated_stock stock Hs). reflexivity.
Qed.

Lemma sample_inventory_validate_clean_witness :
  validate_dataset Calendar.to_datetime init
    (range_indexed [ inventory_row "2024-12-01" "P0001" "S001" 10 20 3;
                     inventory_row "2024-11-30" "P0004" "S003" 500 100 14 ])
    "inventory"
  = Ret (mk_state [], []).
Proof.
  apply (sample_inventory_validate_clean Calendar.to_datetime init).
  repeat constructor; simpl.
  - exists "2024-12-01", "P0001", "S001", 10, 20, 3. split; [lia | reflexivity].
  - exists "2024-11-30", "P0004", "S003", 500, 100, 14. split; [lia | reflexivity].
Defined.

(** The product rows the generator builds are clean: they carry a cost that
    is a number and no [base_price_aed], so the cost rule never runs and a
    frame of such rows logs no issue for kind "products". *)
Theorem sample_products_validate_clean to_datetime self df :
  Forall (fun r => exists product category brand cost,
                     within cost 20 500 = true
                     /\ snd r = products_row product category brand cost) df ->
  validate_dataset to_datetime self df "products" = Ret (mk_state [], []).
Proof.
  intros Hrows.
  rewrite validate_dataset_eq, dataset_log_nil; [reflexivity |].
  intros r Hr. rewrite List.Forall_forall in Hrows.
  destruct (Hrows r Hr) as (product & category & brand & cost & Hc & ->).
  change (record_issues to_datetime "products" ?row) with (products_issues row).
  unfold products_issues, check_missing, missing, cost_issues, products_row.
  rewrite !lookup_insert_ne by discriminate. rewrite lookup_insert_eq.
  cbv beta iota. rewrite !lookup_insert_ne by discriminate. rewrite lookup_empty.
  destruct cost; try discriminate Hc; reflexivity.
Qed.

Lemma sample_products_validate_clean_witness :
  validate_dataset Calendar.to_datetime init
    (range_indexed [ products_row "P0001" "Electronics" "Sony" (float_of_Z 20);
                     products_row "P0002" "Beauty" "Nike" (float_of_Z 500) ])
    "products"
  = Ret (mk_state [], []).
Proof.
  apply (sample_products_validate_clean Calendar.to_datetime init).
  repeat constructor; simpl.
  - exists "P0001", "Electronics", "Sony", (float_of_Z 20).
    split; [vm_compute | ]; reflexivity.
  - exists "P0002", "Beauty", "Nike", (float_of_Z 500).
    split; [vm_compute | ]; reflexivity.
Defined.



Lemma skip_iff_unknown_type_witness :
  action (get_policy "DUPLICATE_ROW") = "SKIP"
  /\ action (get_policy "MISSING_VALUE") <> "SKIP".
Proof.
  split.
  - apply (proj2 (proj2 (skip_iff_unknown_type "DUPLICATE_ROW"))). reflexivity.
  - intros H.
    apply (proj1 (proj2 (skip_iff_unknown_type "MISSING_VALUE"))) in H.
    vm_compute in H. discriminate H.
Defined.
